(** * noir: the worker's join procedure and the Peer Channel loop

    A shallow embedding of [pkg/noir/worker.go].  The worker talks to three
    collaborators that live outside this file (the Manager, the engine
    connection object [*sfu.Peer] and the queues), so every call to one of
    them is an event of an interaction tree; the collaborators' answers are
    supplied by an environment.  The Peer Channel is the infinite [for { }]
    loop of the source, written with [ITree.iter].

    What the embedding leaves out: the arguments of a log call (its level and
    format string are kept); the goroutine a [go] statement starts, which is
    an event here and a program of its own ([PeerChannel]); the moments at
    which the engine calls the hooks, whose bodies are programs of their own
    too.  A trace is the sequence of calls one function makes. *)

From Stdlib Require Import String List ZArith Lia Bool.
From ITree Require Import ITree ITreeFacts Events.State Events.StateFacts.
Import ListNotations.
Import ITreeNotations.
Local Open Scope itree_scope.
Local Open Scope string_scope.
Local Open Scope list_scope.

(** ** Data model *)

(** Go's [[]byte] and [string] are both byte sequences; [string(b)] and
    [[]byte(s)] are the identity on them. *)
Definition bytes := string.

(** Go's [error] interface value; [nil] is [None] wherever an [option error]
    appears. *)
Definition error := string.

(** [webrtc.SDPType]: an integer enumeration whose zero value is the unknown
    type. *)
Inductive SDPType : Type :=
| SDPTypeUnknown
| SDPTypeOffer
| SDPTypePranswer
| SDPTypeAnswer
| SDPTypeRollback.

Definition SDPType_eqb (a b : SDPType) : bool :=
  match a, b with
  | SDPTypeUnknown, SDPTypeUnknown
  | SDPTypeOffer, SDPTypeOffer
  | SDPTypePranswer, SDPTypePranswer
  | SDPTypeAnswer, SDPTypeAnswer
  | SDPTypeRollback, SDPTypeRollback => true
  | _, _ => false
  end.

(** [webrtc.SessionDescription]. *)
Record SessionDescription : Type := {
  Type_ : SDPType;
  SDP : string
}.

(** [webrtc.ICECandidateInit]. *)
Record ICECandidateInit : Type := {
  Candidate : string;
  SDPMid : option string;
  SDPMLineIndex : option Z;
  UsernameFragment : option string
}.

(** [Negotiation] of message_types.go. *)
Record Negotiation : Type := {
  Desc : SessionDescription
}.

(** The protobuf messages of package [pb], with the fields worker.go reads
    and writes. *)
Record JoinRequest : Type := {
  Sid : string;
  Description : bytes
}.

Record Trickle : Type := {
  Init : string;
  Target : Z
}.

Inductive isSignalRequest_Payload : Type :=
| SignalRequest_Join (Join : JoinRequest)
| SignalRequest_Description (Description : bytes)
| SignalRequest_Trickle (Trickle : Trickle)
| SignalRequest_Kill (Kill : bool).

Record SignalRequest : Type := {
  Id : string;
  RequestId : string;
  Payload : option isSignalRequest_Payload
}.

Inductive RoomAdminRequest : Type :=
| mkRoomAdminRequest (raw : bytes).

Inductive isNoirRequest_Command : Type :=
| NoirRequest_Signal (Signal : SignalRequest)
| NoirRequest_RoomAdmin (RoomAdmin : RoomAdminRequest).

Record NoirRequest : Type := {
  Action : string;
  Command : option isNoirRequest_Command
}.

Record JoinReply : Type := {
  JoinReply_Description : bytes
}.

Inductive isSignalReply_Payload : Type :=
| SignalReply_Join (Join : JoinReply)
| SignalReply_Description (Description : bytes)
| SignalReply_Trickle (Trickle : Trickle).

Record SignalReply : Type := {
  Reply_Id : string;
  Reply_RequestId : string;
  Reply_Payload : option isSignalReply_Payload
}.

Inductive isNoirReply_Command : Type :=
| NoirReply_Signal (Signal : SignalReply).

Record NoirReply : Type := {
  Reply_Command : option isNoirReply_Command
}.

(** Zero values: [pb.NoirRequest{}], [var desc pb.Negotiation],
    [var candidate webrtc.ICECandidateInit]. *)
Definition NoirRequest_zero : NoirRequest :=
  {| Action := ""; Command := None |}.

Definition Negotiation_zero : Negotiation :=
  {| Desc := {| Type_ := SDPTypeUnknown; SDP := "" |} |}.

Definition ICECandidateInit_zero : ICECandidateInit :=
  {| Candidate := ""; SDPMid := None; SDPMLineIndex := None;
     UsernameFragment := None |}.

(** The nil-safe getters generated for the protobuf messages. *)
Definition GetSignal (request : NoirRequest) : option SignalRequest :=
  match Command request with
  | Some (NoirRequest_Signal s) => Some s
  | _ => None
  end.

Definition GetRoomAdmin (request : NoirRequest) : option RoomAdminRequest :=
  match Command request with
  | Some (NoirRequest_RoomAdmin a) => Some a
  | _ => None
  end.

Definition GetJoin (signal : option SignalRequest) : option JoinRequest :=
  match signal with
  | Some s =>
      match Payload s with
      | Some (SignalRequest_Join j) => Some j
      | _ => None
      end
  | None => None
  end.

(** Handles of the collaborators' objects. *)
Inductive Peer : Type := PeerHandle (n : nat).
Inductive Queue : Type := QueueHandle (n : nat).
Inductive RoomData : Type := RoomDataHandle (n : nat).

Inductive LogLevel : Type := Debug | Info | Error.

(** ** Events: the calls that leave worker.go

    One constructor per function or method called; the index is the Go
    result type.  [Set_OnIceCandidate peer send pid] is the assignment
    [peer.OnIceCandidate = func ...] of a closure over [send] and [pid], and
    likewise for the other two hooks.  A logging call records its level and
    format string.  What [ValidateOffer] returns besides the error is
    discarded by the code; it is a [bool] here. *)
Variant NoirE : Type -> Type :=
(* w.mu *)
| MuLock : NoirE unit
| MuUnlock : NoirE unit
(* Manager *)
| CreateClient (signal : option SignalRequest)
    : NoirE (option Peer * option error)
| CloseClient (pid : string) : NoirE unit
| GetQueue (topic : string) : NoirE Queue
| GetRemoteRoomData (roomID : string) : NoirE (RoomData * option error)
| ValidateOffer (roomData : RoomData) (pid : string)
    (offer : SessionDescription) : NoirE (bool * option error)
| OpenRoomFromRequest (admin : option RoomAdminRequest) : NoirE unit
(* Queue *)
| Topic (q : Queue) : NoirE string
| BlockUntilNext (q : Queue) (timeout : Z) : NoirE (bytes * option error)
| EnqueueReply (q : Queue) (reply : NoirReply) : NoirE (option error)
(* the engine connection object *)
| Set_OnIceCandidate (peer : Peer) (send : Queue) (pid : string) : NoirE unit
| Set_OnICEConnectionStateChange (peer : Peer) : NoirE unit
| Set_OnOffer (peer : Peer) (send : Queue) (pid : string) : NoirE unit
| Peer_Join (peer : Peer) (sid : string) (offer : SessionDescription)
    : NoirE (option SessionDescription * option error)
| Peer_Answer (peer : Peer) (offer : SessionDescription)
    : NoirE (option SessionDescription * option error)
| Peer_SetRemoteDescription (peer : Peer) (desc : SessionDescription)
    : NoirE (option error)
| Peer_Trickle (peer : Peer) (candidate : ICECandidateInit) (target : Z)
    : NoirE (option error)
(* runtime *)
| Go_PeerChannel (pid roomID : string) (peer : Peer) : NoirE unit
| Sleep (seconds : Z) : NoirE unit
| Log (level : LogLevel) (format : string) : NoirE unit.

(** How a Go function body ends: it returns, or a nil dereference makes it
    panic. *)
Inductive GoResult (A : Type) : Type :=
| Returned (a : A)
| Panicked.
Arguments Returned {A} a.
Arguments Panicked {A}.

(** [worker]: the fields the code reads; the manager and the mutex are
    reached through events. *)
Record worker : Type := {
  id : string;
  queue : Queue
}.

(** Functions of the repository and of its libraries that worker.go calls and
    that are pure: topic naming, the request decoder, the JSON codecs.  A Go
    decoder takes the destination and returns the error; here it returns the
    destination as it leaves it, with the error. *)
Class Library : Type := {
  KeyTopicToPeer : string -> string;
  KeyTopicFromPeer : string -> string;
  UnmarshalRequest : bytes -> NoirRequest -> NoirRequest * option error;
  json_Unmarshal_Negotiation :
    bytes -> Negotiation -> Negotiation * option error;
  json_Unmarshal_ICECandidateInit :
    bytes -> ICECandidateInit -> ICECandidateInit * option error;
  json_Marshal_ICECandidateInit :
    option ICECandidateInit -> bytes * option error;
  json_Marshal_SessionDescription :
    option SessionDescription -> bytes * option error
}.

(** The conversion [pb.Trickle_Target(target)] of a Go [int] to the int32
    enumeration: the low 32 bits, read in two's complement. *)
Definition Trickle_Target (target : Z) : Z :=
  ((target + 2147483648) mod 4294967296 - 2147483648)%Z.

Notation "'call' e" := (ITree.trigger e)
  (at level 10, e at level 9, only parsing).

(** ** The programs *)

Section Worker.

Context {lib : Library}.

(** [if err != nil { log.Errorf(format, err) }] *)
Definition log_if_err (err : option error) (format : string)
  : itree NoirE unit :=
  match err with
  | Some _ => call (Log Error format)
  | None => Ret tt
  end.

(** *** The hooks HandleJoin installs (lines 135-180) *)

(** [candidate] is the pointer the engine passes, nil when it is [None];
    [target] is a Go [int]. *)
Definition OnIceCandidate (send : Queue) (pid : string)
  (candidate : option ICECandidateInit) (target : Z) : itree NoirE unit :=
  let '(bytes, err) := json_Marshal_ICECandidateInit candidate in
  log_if_err err "OnIceCandidate error %s" ;;
  err <- call (EnqueueReply send
    {| Reply_Command := Some (NoirReply_Signal
         {| Reply_Id := pid;
            Reply_RequestId := "";
            Reply_Payload := Some (SignalReply_Trickle
              {| Init := bytes;
                 Target := Trickle_Target target |}) |}) |}) ;;
  log_if_err err "OnIceCandidate send error %v ".

Definition OnICEConnectionStateChange (state : Z) : itree NoirE unit :=
  Ret tt.

Definition OnOffer (send : Queue) (pid : string)
  (description : option SessionDescription) : itree NoirE unit :=
  let '(bytes, err) := json_Marshal_SessionDescription description in
  log_if_err err "OnIceCandidate error %s" ;;
  err <- call (EnqueueReply send
    {| Reply_Command := Some (NoirReply_Signal
         {| Reply_Id := pid;
            Reply_RequestId := "";
            Reply_Payload := Some (SignalReply_Description bytes) |}) |}) ;;
  log_if_err err "OnIceCandidate send error %v ".

(** *** HandleJoin (lines 116-209) *)

(** The Join-answer reply of lines 192-204. *)
Definition JoinAnswer (pid requestId : string) (packed : bytes) : NoirReply :=
  {| Reply_Command := Some (NoirReply_Signal
       {| Reply_Id := pid;
          Reply_RequestId := requestId;
          Reply_Payload := Some (SignalReply_Join
            {| JoinReply_Description := packed |}) |}) |}.

(** Lines 119-208, between [w.mu.Lock()] and the deferred unlock. *)
Definition HandleJoin_locked (signal : option SignalRequest)
  : itree NoirE (GoResult (option error)) :=
  '(peer, err) <- call (CreateClient signal) ;;
  match err with
  | Some e => Ret (Returned (Some e))
  | None =>
      let join := GetJoin signal in
      match signal with
      | None => Ret Panicked                       (* signal.Id *)
      | Some s =>
          let pid := Id s in
          recv <- call (GetQueue (KeyTopicToPeer pid)) ;;
          send <- call (GetQueue (KeyTopicFromPeer pid)) ;;
          _ <- call (Topic recv) ;;
          call (Log Info "listening on %s") ;;
          match peer with
          | None => Ret Panicked                   (* peer.OnIceCandidate = *)
          | Some peer =>
              call (Set_OnIceCandidate peer send pid) ;;
              call (Set_OnICEConnectionStateChange peer) ;;
              call (Set_OnOffer peer send pid) ;;
              match join with
              | None => Ret Panicked               (* join.Description *)
              | Some join =>
                  let offer :=
                    {| Type_ := SDPTypeOffer; SDP := Description join |} in
                  '(answer, _) <- call (Peer_Join peer (Sid join) offer) ;;
                  let '(packed, _) := json_Marshal_SessionDescription answer in
                  _ <- call (EnqueueReply send
                               (JoinAnswer pid (RequestId s) packed)) ;;
                  call (Go_PeerChannel pid (Sid join) peer) ;;
                  Ret (Returned None)
              end
          end
      end
  end.

Definition HandleJoin (signal : option SignalRequest)
  : itree NoirE (GoResult (option error)) :=
  call MuLock ;;
  r <- HandleJoin_locked signal ;;
  call MuUnlock ;;
  Ret r.

(** *** PeerChannel (lines 211-289) *)

(** The Description reply of lines 259-267. *)
Definition DescriptionReply (pid requestId : string) (bytes : bytes)
  : NoirReply :=
  {| Reply_Command := Some (NoirReply_Signal
       {| Reply_Id := pid;
          Reply_RequestId := requestId;
          Reply_Payload := Some (SignalReply_Description bytes) |}) |}.

(** What one pass through the loop body decides: [inl tt] goes round again
    ([continue], or the end of the body), [inr tt] is [return]. *)
Definition continue_ : itree NoirE (unit + unit) := Ret (inl tt).
Definition return_ : itree NoirE (unit + unit) := Ret (inr tt).

(** The [switch] of lines 224-287 on the request the decoder left. *)
Definition PeerChannel_dispatch (pid roomID : string) (peer : Peer)
  (send : Queue) (request : NoirRequest) : itree NoirE (unit + unit) :=
  match Command request with
  | Some (NoirRequest_Signal signal) =>
      match Payload signal with
      | Some (SignalRequest_Kill _) =>
          call (Log Debug "got KillRequest for peer %s") ;;
          call (CloseClient pid) ;;
          return_
      | Some (SignalRequest_Description description) =>
          let '(desc, err) :=
            json_Unmarshal_Negotiation description Negotiation_zero in
          match err with
          | Some _ => call (Log Error "unmarshal err: %s") ;; continue_
          | None =>
              if SDPType_eqb (Type_ (Desc desc)) SDPTypeAnswer then
                call (Log Debug "got answer, setting description") ;;
                _ <- call (Peer_SetRemoteDescription peer (Desc desc)) ;;
                continue_
              else if SDPType_eqb (Type_ (Desc desc)) SDPTypeOffer then
                '(roomData, err) <- call (GetRemoteRoomData roomID) ;;
                match err with
                | Some _ =>
                    call (Log Error "err getting room to validate offer: %s") ;;
                    continue_
                | None =>
                    '(_, err) <-
                      call (ValidateOffer roomData pid (Desc desc)) ;;
                    match err with
                    | Some _ =>
                        call (Log Info "rejected offer: %s") ;; continue_
                    | None =>
                        '(answer, _) <- call (Peer_Answer peer (Desc desc)) ;;
                        let '(bytes, _) :=
                          json_Marshal_SessionDescription answer in
                        call (Log Debug "got offer, sending reply %s") ;;
                        err <- call (EnqueueReply send
                          (DescriptionReply pid (RequestId signal) bytes)) ;;
                        log_if_err err "offer answer send error %v " ;;
                        continue_
                    end
                end
              else continue_
          end
      | Some (SignalRequest_Trickle trickle) =>
          let '(candidate, err) :=
            json_Unmarshal_ICECandidateInit (Init trickle)
              ICECandidateInit_zero in
          match err with
          | Some _ => call (Log Error "unmarshal err: %s %s") ;; continue_
          | None =>
              _ <- call (Peer_Trickle peer candidate (Target trickle)) ;;
              continue_
          end
      | _ =>
          call (Log Error "unknown signal for peer %s") ;; continue_
      end
  | _ =>
      call (Log Error "unknown command for peer %s") ;; continue_
  end.

(** Lines 215-287: one pass through the body of the [for]. *)
Definition PeerChannel_body (pid roomID : string) (peer : Peer)
  (recv send : Queue) : itree NoirE (unit + unit) :=
  '(message, err) <- call (BlockUntilNext recv 0) ;;
  log_if_err err "getting message to peer %s" ;;
  let '(request, err) := UnmarshalRequest message NoirRequest_zero in
  log_if_err err "unmarshal message to peer %s" ;;
  PeerChannel_dispatch pid roomID peer send request.

(** Lines 214-288: the loop, entered with the two queue handles. *)
Definition PeerChannel_loop (pid roomID : string) (peer : Peer)
  (recv send : Queue) : itree NoirE unit :=
  ITree.iter (fun _ : unit => PeerChannel_body pid roomID peer recv send) tt.

Definition PeerChannel (pid roomID : string) (peer : Peer)
  : itree NoirE unit :=
  recv <- call (GetQueue (KeyTopicToPeer pid)) ;;
  send <- call (GetQueue (KeyTopicFromPeer pid)) ;;
  PeerChannel_loop pid roomID peer recv send.

(** *** The worker's own dispatch (lines 49-114) *)

Definition HandleRoomAdmin (request : NoirRequest)
  : itree NoirE (GoResult (option error)) :=
  let admin := GetRoomAdmin request in
  (if String.eqb (Action request) "request.roomadmin.openroom"
   then call (OpenRoomFromRequest admin)
   else Ret tt) ;;
  Ret (Returned None).

Definition HandleSignal (request : NoirRequest)
  : itree NoirE (GoResult (option error)) :=
  let signal := GetSignal request in
  if String.eqb (Action request) "request.signal.join"
  then HandleJoin signal
  else Ret (Returned None).

Definition Handle (request : NoirRequest)
  : itree NoirE (GoResult (option error)) :=
  call (Log Debug "handle %s") ;;
  if String.prefix "request.signal." (Action request)
  then HandleSignal request
  else if String.prefix "request.roomadmin." (Action request)
  then HandleRoomAdmin request
  else Ret (Returned None).

Definition NextCommand (w : worker) (timeout : Z)
  : itree NoirE (option NoirRequest * option error) :=
  '(msg, popErr) <- call (BlockUntilNext (queue w) timeout) ;;
  match popErr with
  | Some e => call (Log Error "queue error %s") ;; Ret (None, Some e)
  | None =>
      let '(request, p_err) := UnmarshalRequest msg NoirRequest_zero in
      match p_err with
      | Some e =>
          call (Log Error "message parse error: %s") ;; Ret (None, Some e)
      | None => Ret (Some request, None)
      end
  end.

Definition HandleNext (w : worker) (timeout : Z)
  : itree NoirE (GoResult (option error)) :=
  '(request, err) <- NextCommand w timeout ;;
  match err with
  | Some e => Ret (Returned (Some e))
  | None =>
      match request with
      | Some request => Handle request
      | None => Ret Panicked
      end
  end.

Definition HandleForever (w : worker) : itree NoirE (GoResult unit) :=
  _ <- call (Topic (queue w)) ;;
  call (Log Debug "worker starting on topic %s") ;;
  ITree.iter (fun _ : unit =>
    r <- HandleNext w 0 ;;
    match r with
    | Panicked => Ret (inr Panicked)
    | Returned (Some _) =>
        call (Log Error "worker handler error %s") ;;
        call (Sleep 1) ;;
        Ret (inl tt)
    | Returned None => Ret (inl tt)
    end) tt.

End Worker.

(** ** Running a program against its collaborators

    The collaborators are a state [W] and a function [env] that answers each
    call and moves the state.  Interpreting a program threads that state and
    the trace: the calls made so far, oldest first, each with its answer. *)

Record Call : Type := mkCall {
  call_type : Type;
  call_event : NoirE call_type;
  call_answer : call_type
}.
Arguments mkCall {call_type} call_event call_answer.

Section Semantics.

Variable W : Type.
Variable env : forall X : Type, NoirE X -> W -> W * X.

Definition handle : NoirE ~> Monads.stateT (W * list Call) (itree void1) :=
  fun X e s =>
    let '(w', x) := env X e (fst s) in
    Ret ((w', snd s ++ [mkCall e x]), x).

Definition run {R : Type} (t : itree NoirE R) (s : W * list Call)
  : itree void1 ((W * list Call) * R) :=
  interp_state handle t s.

(** [finishes t w tr w' r]: started in state [w], the program makes exactly
    the calls [tr], leaves the collaborators in [w'] and ends with [r]. *)
Definition finishes {R : Type} (t : itree NoirE R) (w : W)
  (tr : list Call) (w' : W) (r : R) : Prop :=
  forall tr0, run t (w, tr0) ≈ Ret ((w', tr0 ++ tr), r).

(** [wp t w Q]: started in state [w], the program finishes, and the calls
    it made, the state it left and its result satisfy [Q]. *)
Definition wp {R : Type} (t : itree NoirE R) (w : W)
  (Q : list Call -> W -> R -> Prop) : Prop :=
  exists tr w' r, finishes t w tr w' r /\ Q tr w' r.

End Semantics.

Arguments handle {W} env.
Arguments run {W} env {R} t s.
Arguments finishes {W} env {R} t w tr w' r.
Arguments wp {W} env {R} t w Q.

(** ** Reading a trace *)

Fixpoint collect {A : Type} (f : Call -> option A) (tr : list Call)
  : list A :=
  match tr with
  | [] => []
  | c :: tr =>
      match f c with
      | Some a => a :: collect f tr
      | None => collect f tr
      end
  end.

(** Replies handed to [EnqueueReply], with the queue they went to. *)
Definition enqueue_of (c : Call) : option (Queue * NoirReply) :=
  match call_event c with
  | EnqueueReply q reply => Some (q, reply)
  | _ => None
  end.

Definition enqueued (tr : list Call) : list (Queue * NoirReply) :=
  collect enqueue_of tr.

(** Join-answer replies among the enqueued ones. *)
Definition is_JoinAnswer (qr : Queue * NoirReply) : bool :=
  match Reply_Command (snd qr) with
  | Some (NoirReply_Signal s) =>
      match Reply_Payload s with
      | Some (SignalReply_Join _) => true
      | _ => false
      end
  | None => false
  end.

(** Calls of the engine connection object's methods. *)
Definition is_engine_call (c : Call) : bool :=
  match call_event c with
  | Peer_Join _ _ _ | Peer_Answer _ _
  | Peer_SetRemoteDescription _ _ | Peer_Trickle _ _ _ => true
  | _ => false
  end.

Definition engine_calls (tr : list Call) : list Call :=
  filter is_engine_call tr.

Definition answer_of (c : Call) : option (Peer * SessionDescription) :=
  match call_event c with
  | Peer_Answer peer offer => Some (peer, offer)
  | _ => None
  end.

(** Offers handed to the engine's [Answer]. *)
Definition answers_computed (tr : list Call)
  : list (Peer * SessionDescription) :=
  collect answer_of tr.

Definition remote_description_of (c : Call)
  : option (Peer * SessionDescription) :=
  match call_event c with
  | Peer_SetRemoteDescription peer desc => Some (peer, desc)
  | _ => None
  end.

Definition remote_descriptions_applied (tr : list Call)
  : list (Peer * SessionDescription) :=
  collect remote_description_of tr.

Definition close_of (c : Call) : option string :=
  match call_event c with
  | CloseClient pid => Some pid
  | _ => None
  end.

(** Connection ids handed to [Manager.CloseClient]. *)
Definition closed (tr : list Call) : list string :=
  collect close_of tr.

Definition log_of (c : Call) : option (LogLevel * string) :=
  match call_event c with
  | Log level format => Some (level, format)
  | _ => None
  end.

Definition logged (tr : list Call) : list (LogLevel * string) :=
  collect log_of tr.

Definition is_hook_registration (c : Call) : bool :=
  match call_event c with
  | Set_OnIceCandidate _ _ _ | Set_OnICEConnectionStateChange _
  | Set_OnOffer _ _ _ => true
  | _ => false
  end.

Definition hooks_registered (tr : list Call) : list Call :=
  filter is_hook_registration tr.

Definition spawn_of (c : Call) : option (string * string * Peer) :=
  match call_event c with
  | Go_PeerChannel pid roomID peer => Some (pid, roomID, peer)
  | _ => None
  end.

(** Peer Channels started with [go w.PeerChannel(...)]. *)
Definition spawned (tr : list Call) : list (string * string * Peer) :=
  collect spawn_of tr.

Definition resolution_of (c : Call) : option (string * Queue) :=
  match c with
  | mkCall e x =>
      match e in NoirE X return X -> option (string * Queue) with
      | GetQueue topic => fun q => Some (topic, q)
      | _ => fun _ => None
      end x
  end.

(** Topics resolved by [Manager.GetQueue], with the handle each one gave. *)
Definition resolved (tr : list Call) : list (string * Queue) :=
  collect resolution_of tr.

Definition creation_of (c : Call) : option (option Peer * option error) :=
  match c with
  | mkCall e x =>
      match e in NoirE X return X -> option (option Peer * option error) with
      | CreateClient _ => fun r => Some r
      | _ => fun _ => None
      end x
  end.

(** What [Manager.CreateClient] answered. *)
Definition creations (tr : list Call) : list (option Peer * option error) :=
  collect creation_of tr.

Definition negotiation_of (c : Call)
  : option (option SessionDescription * option error) :=
  match c with
  | mkCall e x =>
      match e in NoirE X
            return X -> option (option SessionDescription * option error) with
      | Peer_Join _ _ _ => fun r => Some r
      | _ => fun _ => None
      end x
  end.

(** What the engine's [Join] answered. *)
Definition negotiations (tr : list Call)
  : list (option SessionDescription * option error) :=
  collect negotiation_of tr.

Definition room_data_of (c : Call) : option (RoomData * option error) :=
  match c with
  | mkCall e x =>
      match e in NoirE X return X -> option (RoomData * option error) with
      | GetRemoteRoomData _ => fun r => Some r
      | _ => fun _ => None
      end x
  end.

(** What [Manager.GetRemoteRoomData] answered. *)
Definition room_data_answers (tr : list Call)
  : list (RoomData * option error) :=
  collect room_data_of tr.

Definition validation_of (c : Call) : option (bool * option error) :=
  match c with
  | mkCall e x =>
      match e in NoirE X return X -> option (bool * option error) with
      | ValidateOffer _ _ _ => fun r => Some r
      | _ => fun _ => None
      end x
  end.

(** What [Manager.ValidateOffer] answered. *)
Definition validations (tr : list Call) : list (bool * option error) :=
  collect validation_of tr.

(** An offer is rejected when the room data cannot be fetched or when the
    Manager refuses the offer, and accepted when both calls give a nil
    error. *)
Definition offer_rejected (tr : list Call) : Prop :=
  (exists roomData e,
     room_data_answers tr = [(roomData, Some e)] /\ validations tr = []) \/
  (exists roomData v e,
     room_data_answers tr = [(roomData, None)] /\
     validations tr = [(v, Some e)]).

Definition offer_accepted (tr : list Call) : Prop :=
  exists roomData v,
    room_data_answers tr = [(roomData, None)] /\ validations tr = [(v, None)].

(** The log entries of lines 217-223, for the two errors a pass starts
    with. *)
Definition error_log_calls (popErr unmarshalErr : option error)
  : list Call :=
  match popErr with
  | Some _ => [mkCall (Log Error "getting message to peer %s") tt]
  | None => []
  end ++
  match unmarshalErr with
  | Some _ => [mkCall (Log Error "unmarshal message to peer %s") tt]
  | None => []
  end.

(** *** Hooks and the negotiation *)

Definition Peer_eqb (p q : Peer) : bool :=
  match p, q with
  | PeerHandle n, PeerHandle m => Nat.eqb n m
  end.

Definition registers_OnIceCandidate (p : Peer) (c : Call) : bool :=
  match call_event c with
  | Set_OnIceCandidate q _ _ => Peer_eqb p q
  | _ => false
  end.

Definition registers_OnICEConnectionStateChange (p : Peer) (c : Call)
  : bool :=
  match call_event c with
  | Set_OnICEConnectionStateChange q => Peer_eqb p q
  | _ => false
  end.

Definition registers_OnOffer (p : Peer) (c : Call) : bool :=
  match call_event c with
  | Set_OnOffer q _ _ => Peer_eqb p q
  | _ => false
  end.

(** The call is the engine's [Join] on the connection object [p]. *)
Definition negotiates (p : Peer) (c : Call) : bool :=
  match call_event c with
  | Peer_Join q _ _ => Peer_eqb p q
  | _ => false
  end.

(** Wherever the trace has a [Join] on a connection object, the three hooks
    of that object were set earlier in the trace. *)
Definition hooks_before_negotiation (tr : list Call) : Prop :=
  forall p pre c post,
    tr = pre ++ c :: post ->
    negotiates p c = true ->
    existsb (registers_OnIceCandidate p) pre = true /\
    existsb (registers_OnICEConnectionStateChange p) pre = true /\
    existsb (registers_OnOffer p) pre = true.

(** The same, as a pass over the trace that remembers on which objects each
    hook has been set. *)
Fixpoint check_hooks (ice state offer : list Peer) (tr : list Call) : bool :=
  match tr with
  | [] => true
  | c :: tr =>
      match call_event c with
      | Peer_Join p _ _ =>
          existsb (Peer_eqb p) ice && existsb (Peer_eqb p) state
          && existsb (Peer_eqb p) offer && check_hooks ice state offer tr
      | Set_OnIceCandidate p _ _ => check_hooks (p :: ice) state offer tr
      | Set_OnICEConnectionStateChange p =>
          check_hooks ice (p :: state) offer tr
      | Set_OnOffer p _ _ => check_hooks ice state (p :: offer) tr
      | _ => check_hooks ice state offer tr
      end
  end.

(** ** Collaborators for examples

    A table-driven decoder and a scripted environment: the state is what the
    inbound queue still has to deliver. *)

Definition example_signal (payload : isSignalRequest_Payload)
  : SignalRequest :=
  {| Id := "peerA"; RequestId := "req-7"; Payload := Some payload |}.

Definition example_request (payload : isSignalRequest_Payload)
  : NoirRequest :=
  {| Action := "request.signal.";
     Command := Some (NoirRequest_Signal (example_signal payload)) |}.

(** The last-but-two row is a message whose first field decodes to a Kill
    signal and whose remainder is cut short: the decoder has stored the field
    when it reports the error, as decoders that fill the destination field
    by field do. *)
Definition example_UnmarshalRequest (message : bytes) (request : NoirRequest)
  : NoirRequest * option error :=
  if message =? "kill" then
    (example_request (SignalRequest_Kill true), None)
  else if message =? "answer" then
    (example_request (SignalRequest_Description "{answer}"), None)
  else if message =? "offer" then
    (example_request (SignalRequest_Description "{offer}"), None)
  else if message =? "pranswer" then
    (example_request (SignalRequest_Description "{pranswer}"), None)
  else if message =? "description?" then
    (example_request (SignalRequest_Description "{"), None)
  else if message =? "trickle" then
    (example_request
       (SignalRequest_Trickle {| Init := "{candidate}"; Target := 1 |}), None)
  else if message =? "trickle?" then
    (example_request
       (SignalRequest_Trickle {| Init := "{"; Target := 1 |}), None)
  else if message =? "join" then
    (example_request
       (SignalRequest_Join {| Sid := "room1"; Description := "v=0" |}), None)
  else if message =? "kill, cut short" then
    (example_request (SignalRequest_Kill true), Some "unexpected EOF")
  else if message =? "" then
    (request, None)
  else
    (request, Some "cannot parse invalid wire-format data").

Definition example_Unmarshal_Negotiation (data : bytes) (desc : Negotiation)
  : Negotiation * option error :=
  if data =? "{answer}" then
    ({| Desc := {| Type_ := SDPTypeAnswer; SDP := "v=0 a" |} |}, None)
  else if data =? "{offer}" then
    ({| Desc := {| Type_ := SDPTypeOffer; SDP := "v=0 o" |} |}, None)
  else if data =? "{pranswer}" then
    ({| Desc := {| Type_ := SDPTypePranswer; SDP := "v=0 p" |} |}, None)
  else
    (desc, Some "unexpected end of JSON input").

Definition example_Unmarshal_ICECandidateInit (data : bytes)
  (candidate : ICECandidateInit) : ICECandidateInit * option error :=
  if data =? "{candidate}" then
    ({| Candidate := "candidate:1 1 udp 1 10.0.0.1 9 typ host";
        SDPMid := None; SDPMLineIndex := None; UsernameFragment := None |},
     None)
  else
    (candidate, Some "unexpected end of JSON input").

Definition example_Marshal_ICECandidateInit
  (candidate : option ICECandidateInit) : bytes * option error :=
  match candidate with
  | Some c => (("{" ++ Candidate c ++ "}")%string, None)
  | None => ("null", None)
  end.

Definition example_Marshal_SessionDescription
  (description : option SessionDescription) : bytes * option error :=
  match description with
  | Some d => (("{sdp:" ++ SDP d ++ "}")%string, None)
  | None => ("null", None)
  end.

Definition example_library : Library := {|
  KeyTopicToPeer := fun pid => ("to/" ++ pid)%string;
  KeyTopicFromPeer := fun pid => ("from/" ++ pid)%string;
  UnmarshalRequest := example_UnmarshalRequest;
  json_Unmarshal_Negotiation := example_Unmarshal_Negotiation;
  json_Unmarshal_ICECandidateInit := example_Unmarshal_ICECandidateInit;
  json_Marshal_ICECandidateInit := example_Marshal_ICECandidateInit;
  json_Marshal_SessionDescription := example_Marshal_SessionDescription
|}.

Definition example_world : Type := list (bytes * option error).

(** The Manager refuses a join without a connection id, knows the room
    "room1" only and rejects an offer with an empty SDP; the engine fails to
    join on the SDP "bad"; everything else succeeds. *)
Definition example_env (X : Type) (e : NoirE X) (w : example_world)
  : example_world * X :=
  match e in NoirE X return example_world * X with
  | MuLock => (w, tt)
  | MuUnlock => (w, tt)
  | CreateClient signal =>
      (w, match signal with
          | Some s =>
              if Id s =? "" then (None, Some "no connection id")
              else (Some (PeerHandle 1), None)
          | None => (None, Some "no signal")
          end)
  | CloseClient _ => (w, tt)
  | GetQueue topic => (w, QueueHandle (String.length topic))
  | GetRemoteRoomData roomID =>
      (w, if roomID =? "room1" then (RoomDataHandle 1, None)
          else (RoomDataHandle 0, Some "no such room"))
  | ValidateOffer _ _ offer =>
      (w, if SDP offer =? "" then (false, Some "empty offer")
          else (true, None))
  | OpenRoomFromRequest _ => (w, tt)
  | Topic (QueueHandle n) => (w, "queue")
  | BlockUntilNext _ _ =>
      match w with
      | [] => (w, ("", Some "queue closed"))
      | m :: w' => (w', m)
      end
  | EnqueueReply _ _ => (w, None)
  | Set_OnIceCandidate _ _ _ => (w, tt)
  | Set_OnICEConnectionStateChange _ => (w, tt)
  | Set_OnOffer _ _ _ => (w, tt)
  | Peer_Join _ _ offer =>
      (w, if SDP offer =? "bad" then (None, Some "join failed")
          else (Some {| Type_ := SDPTypeAnswer; SDP := "v=0 a" |}, None))
  | Peer_Answer _ _ =>
      (w, (Some {| Type_ := SDPTypeAnswer; SDP := "v=0 a" |}, None))
  | Peer_SetRemoteDescription _ _ => (w, None)
  | Peer_Trickle _ _ _ => (w, None)
  | Go_PeerChannel _ _ _ => (w, tt)
  | Sleep _ => (w, tt)
  | Log _ _ => (w, tt)
  end.

(** A join request, the same with an SDP the engine fails on, and the same
    without a connection id. *)
Definition example_join : SignalRequest :=
  example_signal
    (SignalRequest_Join {| Sid := "room1"; Description := "v=0" |}).

Definition example_bad_join : SignalRequest :=
  example_signal
    (SignalRequest_Join {| Sid := "room1"; Description := "bad" |}).

Definition example_anonymous_join : SignalRequest :=
  {| Id := ""; RequestId := "req-8";
     Payload := Some (SignalRequest_Join
                        {| Sid := "room1"; Description := "v=0" |}) |}.

(** The calls [HandleJoin] makes for [example_join] and for
    [example_bad_join] against [example_env]; they differ in the offer, in
    what [Join] answers and in the reply's description. *)
Definition example_join_calls (sdp : string)
  (joined : option SessionDescription * option error) (packed : bytes)
  : list Call :=
  [ mkCall MuLock tt;
    mkCall (CreateClient (Some (example_signal (SignalRequest_Join
              {| Sid := "room1"; Description := sdp |}))))
      (Some (PeerHandle 1), None);
    mkCall (GetQueue "to/peerA") (QueueHandle 8);
    mkCall (GetQueue "from/peerA") (QueueHandle 10);
    mkCall (Topic (QueueHandle 8)) "queue";
    mkCall (Log Info "listening on %s") tt;
    mkCall (Set_OnIceCandidate (PeerHandle 1) (QueueHandle 10) "peerA") tt;
    mkCall (Set_OnICEConnectionStateChange (PeerHandle 1)) tt;
    mkCall (Set_OnOffer (PeerHandle 1) (QueueHandle 10) "peerA") tt;
    mkCall (Peer_Join (PeerHandle 1) "room1"
              {| Type_ := SDPTypeOffer; SDP := sdp |}) joined;
    mkCall (EnqueueReply (QueueHandle 10)
              (@JoinAnswer "peerA" "req-7" packed)) None;
    mkCall (Go_PeerChannel "peerA" "room1" (PeerHandle 1)) tt;
    mkCall MuUnlock tt ].

Definition example_join_trace : list Call :=
  example_join_calls "v=0"
    (Some {| Type_ := SDPTypeAnswer; SDP := "v=0 a" |}, None) "{sdp:v=0 a}".

Definition example_bad_join_trace : list Call :=
  example_join_calls "bad" (None, Some "join failed") "null".

(** ** More ways to read a trace *)

Definition pop_of (c : Call) : option (Queue * Z) :=
  match call_event c with
  | BlockUntilNext q timeout => Some (q, timeout)
  | _ => None
  end.

(** Queues popped with [BlockUntilNext], with the timeout given. *)
Definition pops (tr : list Call) : list (Queue * Z) :=
  collect pop_of tr.

Definition trickle_of (c : Call) : option (Peer * ICECandidateInit * Z) :=
  match call_event c with
  | Peer_Trickle peer candidate target => Some (peer, candidate, target)
  | _ => None
  end.

(** Candidates handed to the engine's [Trickle], with their targets. *)
Definition trickles_forwarded (tr : list Call)
  : list (Peer * ICECandidateInit * Z) :=
  collect trickle_of tr.

Definition room_request_of (c : Call) : option string :=
  match call_event c with
  | GetRemoteRoomData roomID => Some roomID
  | _ => None
  end.

(** Room ids handed to [Manager.GetRemoteRoomData]. *)
Definition room_requests (tr : list Call) : list string :=
  collect room_request_of tr.

Definition validation_request_of (c : Call)
  : option (RoomData * string * SessionDescription) :=
  match call_event c with
  | ValidateOffer roomData pid offer => Some (roomData, pid, offer)
  | _ => None
  end.

(** What [Manager.ValidateOffer] was asked. *)
Definition validation_requests (tr : list Call)
  : list (RoomData * string * SessionDescription) :=
  collect validation_request_of tr.

Definition answer_result_of (c : Call)
  : option (option SessionDescription * option error) :=
  match c with
  | mkCall e x =>
      match e in NoirE X
            return X -> option (option SessionDescription * option error) with
      | Peer_Answer _ _ => fun r => Some r
      | _ => fun _ => None
      end x
  end.

(** What the engine's [Answer] answered. *)
Definition answer_results (tr : list Call)
  : list (option SessionDescription * option error) :=
  collect answer_result_of tr.

Definition enqueue_result_of (c : Call) : option (option error) :=
  match c with
  | mkCall e x =>
      match e in NoirE X return X -> option (option error) with
      | EnqueueReply _ _ => fun r => Some r
      | _ => fun _ => None
      end x
  end.

(** What [EnqueueReply] answered. *)
Definition enqueue_results (tr : list Call) : list (option error) :=
  collect enqueue_result_of tr.

Definition room_opening_of (c : Call) : option (option RoomAdminRequest) :=
  match call_event c with
  | OpenRoomFromRequest admin => Some admin
  | _ => None
  end.

(** What [Manager.OpenRoomFromRequest] was given. *)
Definition rooms_opened (tr : list Call) : list (option RoomAdminRequest) :=
  collect room_opening_of tr.

Definition sleep_of (c : Call) : option Z :=
  match call_event c with
  | Sleep seconds => Some seconds
  | _ => None
  end.

Definition sleeps (tr : list Call) : list Z :=
  collect sleep_of tr.

Definition is_MuLock (c : Call) : bool :=
  match call_event c with
  | MuLock => true
  | _ => false
  end.

Definition is_MuUnlock (c : Call) : bool :=
  match call_event c with
  | MuUnlock => true
  | _ => false
  end.

Definition starts_with (p : Call -> bool) (tr : list Call) : bool :=
  match tr with
  | c :: _ => p c
  | [] => false
  end.

Definition ends_with (p : Call -> bool) (tr : list Call) : bool :=
  starts_with p (rev tr).

(** The object an engine call is made on. *)
Definition engine_peer_of (c : Call) : option Peer :=
  match call_event c with
  | Peer_Join p _ _ | Peer_Answer p _
  | Peer_SetRemoteDescription p _ | Peer_Trickle p _ _ => Some p
  | _ => None
  end.

(** Calls that belong to the worker's side of a connection's life: the
    mutex, the creation of the connection object, the resolution of queues,
    the hooks, the first negotiation, the start of a Peer Channel, the
    room-admin operation and the back-off sleep. *)
Definition is_worker_call (c : Call) : bool :=
  match call_event c with
  | MuLock | MuUnlock | CreateClient _ | GetQueue _
  | Set_OnIceCandidate _ _ _ | Set_OnICEConnectionStateChange _
  | Set_OnOffer _ _ _ | Peer_Join _ _ _ | Go_PeerChannel _ _ _
  | OpenRoomFromRequest _ | Sleep _ | Topic _ => true
  | _ => false
  end.

Definition worker_calls (tr : list Call) : list Call :=
  filter is_worker_call tr.

(** A reply is a Description reply for the connection [pid], sent on
    [send]. *)
Definition is_DescriptionReply_for (send : Queue) (pid : string)
  (qr : Queue * NoirReply) : Prop :=
  exists requestId bytes,
    qr = (send,
          {| Reply_Command := Some (NoirReply_Signal
               {| Reply_Id := pid;
                  Reply_RequestId := requestId;
                  Reply_Payload := Some (SignalReply_Description bytes)
               |}) |}).

(** ** Passes of a loop *)

(** [rounds env body n w tr w']: started in state [w], [n] passes of [body]
    in a row each end in going round; together they make the calls [tr] and
    leave the state [w']. *)
Inductive rounds {W : Type} (env : forall X : Type, NoirE X -> W -> W * X)
  (body : itree NoirE (unit + unit)) : nat -> W -> list Call -> W -> Prop :=
| rounds_none w : rounds env body 0 w [] w
| rounds_more n w tr w1 tr' w2 :
    finishes env body w tr w1 (inl tt) ->
    rounds env body n w1 tr' w2 ->
    rounds env body (S n) w (tr ++ tr') w2.

(** [trickle_rounds env pid roomID peer recv send w cts tr w']: the inbound
    queue delivers, one per pass, Trickle payloads whose candidates decode to
    the candidates of [cts], with the targets of [cts], in that order. *)
Inductive trickle_rounds {lib : Library} {W : Type}
  (env : forall X : Type, NoirE X -> W -> W * X)
  (pid roomID : string) (peer : Peer) (recv send : Queue)
  : W -> list (ICECandidateInit * Z) -> list Call -> W -> Prop :=
| trickle_rounds_none w :
    trickle_rounds env pid roomID peer recv send w [] [] w
| trickle_rounds_more w w0 message popErr request unmarshalErr signal
    trickle candidate tr w1 cts tr' w2 :
    env _ (BlockUntilNext recv 0) w = (w0, (message, popErr)) ->
    UnmarshalRequest message NoirRequest_zero = (request, unmarshalErr) ->
    Command request = Some (NoirRequest_Signal signal) ->
    Payload signal = Some (SignalRequest_Trickle trickle) ->
    json_Unmarshal_ICECandidateInit (Init trickle) ICECandidateInit_zero
      = (candidate, None) ->
    finishes env (PeerChannel_body pid roomID peer recv send) w tr w1
      (inl tt) ->
    trickle_rounds env pid roomID peer recv send w1 cts tr' w2 ->
    trickle_rounds env pid roomID peer recv send w
      ((candidate, Target trickle) :: cts) (tr ++ tr') w2.

(** ** The body of the worker's loop *)

(** Lines 52-55: one pass of the [for] of [HandleForever]. *)
Definition HandleForever_body {lib : Library} (w : worker)
  : itree NoirE (unit + GoResult unit) :=
  r <- HandleNext w 0 ;;
  match r with
  | Panicked => Ret (inr Panicked)
  | Returned (Some _) =>
      call (Log Error "worker handler error %s") ;;
      call (Sleep 1) ;;
      Ret (inl tt)
  | Returned None => Ret (inl tt)
  end.

(** ** A second set of example collaborators

    A decoder that reads every message as a Trickle payload whose candidate
    is the message itself and whose target is the message's length. *)
Definition relay_UnmarshalRequest (message : bytes) (request : NoirRequest)
  : NoirRequest * option error :=
  ({| Action := "request.signal.trickle";
      Command := Some (NoirRequest_Signal
        {| Id := "peerA"; RequestId := "";
           Payload := Some (SignalRequest_Trickle
             {| Init := message;
                Target := Z.of_nat (String.length message) |}) |}) |},
   None).

Definition relay_Unmarshal_ICECandidateInit (data : bytes)
  (candidate : ICECandidateInit) : ICECandidateInit * option error :=
  ({| Candidate := data; SDPMid := None; SDPMLineIndex := None;
      UsernameFragment := None |}, None).

Definition relay_library : Library := {|
  KeyTopicToPeer := fun pid => ("to/" ++ pid)%string;
  KeyTopicFromPeer := fun pid => ("from/" ++ pid)%string;
  UnmarshalRequest := relay_UnmarshalRequest;
  json_Unmarshal_Negotiation := example_Unmarshal_Negotiation;
  json_Unmarshal_ICECandidateInit := relay_Unmarshal_ICECandidateInit;
  json_Marshal_ICECandidateInit := example_Marshal_ICECandidateInit;
  json_Marshal_SessionDescription := example_Marshal_SessionDescription
|}.

Definition relay_candidate (s : string) : ICECandidateInit :=
  {| Candidate := s; SDPMid := None; SDPMLineIndex := None;
     UsernameFragment := None |}.

(** Requests for the worker's dispatch. *)
Definition example_openroom : NoirRequest :=
  {| Action := "request.roomadmin.openroom";
     Command := Some (NoirRequest_RoomAdmin (mkRoomAdminRequest "room1")) |}.

Definition example_join_request : NoirRequest :=
  {| Action := "request.signal.join";
     Command := Some (NoirRequest_Signal example_join) |}.

Definition example_worker : worker :=
  {| id := "node1"; queue := QueueHandle 0 |}.

(** A Manager whose [CreateClient] answers neither a connection object nor
    an error; the rest is [example_env]. *)
Definition careless_env (X : Type) (e : NoirE X) (w : example_world)
  : example_world * X :=
  match e in NoirE X return example_world * X with
  | CreateClient _ => (w, (None, None))
  | e' => example_env _ e' w
  end.

(** ** Proof steps *)

(** Use a hypothesis that says what the collaborator answers here. *)
Ltac wp_known E :=
  match type of E with
  | ?env ?X ?e ?w = (?w', ?x) =>
      match goal with
      | H : env X e w = _ |- _ =>
          lazymatch H with
          | E => fail
          | _ => rewrite H in E; injection E as <- <-
          end
      end
  end.

(** ** Rules for running programs *)

Section Rules.

Context {W : Type} (env : forall X : Type, NoirE X -> W -> W * X).

Lemma run_ret {R} (r : R) s : run env (Ret r) s ≈ Ret (s, r).
Proof. unfold run. rewrite interp_state_ret. reflexivity. Qed.

Lemma run_bind {A R} (t : itree NoirE A) (k : A -> itree NoirE R) s :
  run env (x <- t ;; k x) s
  ≈ (sa <- run env t s ;; run env (k (snd sa)) (fst sa)).
Proof. unfold run. rewrite interp_state_bind. reflexivity. Qed.

Lemma run_call {X} (e : NoirE X) w w' x tr :
  env X e w = (w', x) ->
  run env (call e) (w, tr) ≈ Ret ((w', tr ++ [mkCall e x]), x).
Proof.
  intros E. unfold run. rewrite interp_state_trigger. unfold handle. cbn.
  rewrite E. reflexivity.
Qed.

Lemma run_eutt {R} (t t' : itree NoirE R) s :
  t ≈ t' -> run env t s ≈ run env t' s.
Proof. intros H. unfold run. rewrite H. reflexivity. Qed.

Lemma finishes_ret {R} (r : R) w : finishes env (Ret r) w [] w r.
Proof. intros tr0. rewrite run_ret, app_nil_r. reflexivity. Qed.

Lemma finishes_call {X} (e : NoirE X) w w' x :
  env X e w = (w', x) -> finishes env (call e) w [mkCall e x] w' x.
Proof. intros E tr0. apply run_call, E. Qed.

Lemma finishes_bind {A R} (t : itree NoirE A) (k : A -> itree NoirE R)
  w tr1 w1 a tr2 w2 r :
  finishes env t w tr1 w1 a ->
  finishes env (k a) w1 tr2 w2 r ->
  finishes env (x <- t ;; k x) w (tr1 ++ tr2) w2 r.
Proof.
  intros H1 H2 tr0. rewrite run_bind, (H1 tr0), bind_ret_l. cbn [fst snd].
  rewrite (H2 (tr0 ++ tr1)), app_assoc. reflexivity.
Qed.

Lemma finishes_eutt {R} (t t' : itree NoirE R) w tr w' r :
  t ≈ t' -> finishes env t' w tr w' r -> finishes env t w tr w' r.
Proof. intros H F tr0. rewrite (run_eutt _ _ _ H). apply F. Qed.

(** A program finishes in one way only. *)
Lemma finishes_inj {R} (t : itree NoirE R) w tr1 w1 r1 tr2 w2 r2 :
  finishes env t w tr1 w1 r1 -> finishes env t w tr2 w2 r2 ->
  tr1 = tr2 /\ w1 = w2 /\ r1 = r2.
Proof.
  intros H1 H2. specialize (H1 []). specialize (H2 []).
  rewrite H1 in H2. apply eqit_inv_Ret in H2. cbn in H2.
  inversion H2. auto.
Qed.

Lemma wp_ret {R} (r : R) w (Q : list Call -> W -> R -> Prop) :
  Q [] w r -> wp env (Ret r) w Q.
Proof. intros H. exists [], w, r. split; [apply finishes_ret | exact H]. Qed.

Lemma wp_bind {A R} (t : itree NoirE A) (k : A -> itree NoirE R) w
  (Q : list Call -> W -> R -> Prop) :
  wp env t w (fun tr1 w1 a => wp env (k a) w1 (fun tr2 => Q (tr1 ++ tr2))) ->
  wp env (x <- t ;; k x) w Q.
Proof.
  intros (tr1 & w1 & a & F1 & tr2 & w2 & r & F2 & H).
  exists (tr1 ++ tr2), w2, r. split; [| exact H].
  eapply finishes_bind; eassumption.
Qed.

Lemma wp_call {X} (e : NoirE X) w (Q : list Call -> W -> X -> Prop) :
  (forall w' x, env X e w = (w', x) -> Q [mkCall e x] w' x) ->
  wp env (call e) w Q.
Proof.
  intros H. specialize (H (fst (env X e w)) (snd (env X e w))).
  destruct (env X e w) as [w' x] eqn:E.
  exists [mkCall e x], w', x.
  split; [apply finishes_call, E | apply H; reflexivity].
Qed.

Lemma wp_call_bind {X R} (e : NoirE X) (k : X -> itree NoirE R) w
  (Q : list Call -> W -> R -> Prop) :
  (forall w' x, env X e w = (w', x) ->
     wp env (k x) w' (fun tr => Q (mkCall e x :: tr))) ->
  wp env (x <- call e ;; k x) w Q.
Proof.
  intros H. apply wp_bind, wp_call. intros w' x E. apply H, E.
Qed.

Lemma wp_eutt {R} (t t' : itree NoirE R) w (Q : list Call -> W -> R -> Prop) :
  t ≈ t' -> wp env t' w Q -> wp env t w Q.
Proof.
  intros E (tr & w' & r & F & H). exists tr, w', r.
  split; [eapply finishes_eutt; eassumption | exact H].
Qed.

Lemma wp_ret_bind {A R} (a : A) (k : A -> itree NoirE R) w
  (Q : list Call -> W -> R -> Prop) :
  wp env (k a) w Q -> wp env (x <- Ret a ;; k x) w Q.
Proof. apply wp_eutt. rewrite bind_ret_l. reflexivity. Qed.

Lemma wp_bind_bind {A B R} (t : itree NoirE A) (k : A -> itree NoirE B)
  (h : B -> itree NoirE R) w (Q : list Call -> W -> R -> Prop) :
  wp env (x <- t ;; y <- k x ;; h y) w Q ->
  wp env (y <- (x <- t ;; k x) ;; h y) w Q.
Proof. apply wp_eutt. rewrite bind_bind. reflexivity. Qed.

Lemma wp_mono {R} (t : itree NoirE R) w (Q Q' : list Call -> W -> R -> Prop) :
  (forall tr w' r, Q tr w' r -> Q' tr w' r) -> wp env t w Q -> wp env t w Q'.
Proof. intros I (tr & w' & r & F & H). exists tr, w', r. auto. Qed.

(** The loop: a pass that ends in [return] ends the loop, and a pass that
    goes round is followed by the loop again. *)
Lemma iter_returns (body : itree NoirE (unit + unit)) w tr w' :
  finishes env body w tr w' (inr tt) ->
  finishes env (ITree.iter (fun _ : unit => body) tt) w tr w' tt.
Proof.
  intros H. eapply finishes_eutt; [rewrite unfold_iter; reflexivity |].
  rewrite <- (app_nil_r tr). eapply finishes_bind; [exact H |].
  cbn. apply finishes_ret.
Qed.

Lemma iter_goes_round (body : itree NoirE (unit + unit)) w tr w' tr2 w2 :
  finishes env body w tr w' (inl tt) ->
  finishes env (ITree.iter (fun _ : unit => body) tt) w' tr2 w2 tt ->
  finishes env (ITree.iter (fun _ : unit => body) tt) w (tr ++ tr2) w2 tt.
Proof.
  intros H1 H2. eapply finishes_eutt; [rewrite unfold_iter; reflexivity |].
  eapply finishes_bind; [exact H1 |].
  cbn. eapply finishes_eutt; [apply tau_eutt | exact H2].
Qed.

End Rules.

Lemma wp_finishes {W : Type} (env : forall X : Type, NoirE X -> W -> W * X)
  {R} (t : itree NoirE R) w (Q : list Call -> W -> R -> Prop) tr w' r :
  wp env t w Q -> finishes env t w tr w' r -> Q tr w' r.
Proof.
  intros (tr1 & w1 & r1 & F1 & H) F.
  destruct (finishes_inj env _ _ _ _ _ _ _ _ F1 F) as (-> & -> & ->).
  exact H.
Qed.

(** One step of a program: a call is answered by the collaborators (as a
    hypothesis says, if one does), a [match] is decided by cases. *)
Ltac wp_intro_call :=
  let w' := fresh "w" in
  let x := fresh "x" in
  let E := fresh "E" in
  intros w' x E;
  first
    [ wp_known E
    | progress cbn in E; injection E as <- <-
    | lazymatch type of x with unit => destruct x | _ => idtac end ].

Ltac wp_cases x :=
  first
    [ match goal with H : x = _ |- _ => rewrite H end
    | is_var x; destruct x
    | destruct x eqn:? ].

Ltac wp_step :=
  first
    [ apply wp_ret
    | apply wp_call_bind; wp_intro_call
    | apply wp_call; wp_intro_call
    | apply wp_bind_bind
    | apply wp_ret_bind
    | match goal with
      | |- wp _ (match ?x with _ => _ end) _ _ => wp_cases x
      | |- wp _ (ITree.bind (match ?x with _ => _ end) _) _ _ => wp_cases x
      | H : ?a = _ |- wp _ ?t _ _ =>
          match t with context [a] => rewrite H end
      end
    | progress cbn [SDPType_eqb Command Payload Desc Type_]
    | progress unfold log_if_err, continue_, return_
    | progress cbv beta iota ].

Ltac wp_run := repeat wp_step.

(** ** The hook check is sound *)

Lemma Peer_eqb_refl p : Peer_eqb p p = true.
Proof. destruct p. apply Nat.eqb_refl. Qed.

Lemma Peer_eqb_eq p q : Peer_eqb p q = true -> p = q.
Proof.
  destruct p, q. cbn. intros H. apply Nat.eqb_eq in H. congruence.
Qed.

Lemma check_hooks_sound tr :
  forall ice state offer,
    check_hooks ice state offer tr = true ->
    forall p pre c post,
      tr = pre ++ c :: post ->
      negotiates p c = true ->
      existsb (Peer_eqb p) ice
        || existsb (registers_OnIceCandidate p) pre = true /\
      existsb (Peer_eqb p) state
        || existsb (registers_OnICEConnectionStateChange p) pre = true /\
      existsb (Peer_eqb p) offer
        || existsb (registers_OnOffer p) pre = true.
Proof.
  induction tr as [| a tr IH]; intros ice state offer Hc p pre c post Ht Hn.
  - destruct pre; discriminate.
  - destruct pre as [| c0 pre]; cbn in Ht; injection Ht as -> ->.
    + (* the negotiation is the first call left: the sets hold its object *)
      destruct c as [X e x]; destruct e; cbn in Hn; try discriminate.
      apply Peer_eqb_eq in Hn. subst peer. cbn in Hc.
      rewrite !andb_true_iff in Hc. destruct Hc as [[[-> ->] ->] _].
      auto.
    + (* a call before it: either it sets a hook, which moves the object
         from the trace to a set, or it changes neither *)
      assert (IH' : forall ice' state' offer',
                 check_hooks ice' state' offer' (pre ++ c :: post) = true ->
                 existsb (Peer_eqb p) ice'
                   || existsb (registers_OnIceCandidate p) pre = true /\
                 existsb (Peer_eqb p) state'
                   || existsb (registers_OnICEConnectionStateChange p) pre
                   = true /\
                 existsb (Peer_eqb p) offer'
                   || existsb (registers_OnOffer p) pre = true)
        by (intros; eapply IH; eauto).
      clear IH.
      unfold registers_OnIceCandidate, registers_OnICEConnectionStateChange,
        registers_OnOffer.
      destruct c0 as [X e x]; destruct e; cbn in Hc |- *;
        try (apply IH'; exact Hc);
        try (apply IH' in Hc; cbn in Hc; destruct Hc as (I1 & I2 & I3);
             repeat split; auto;
             destruct (Peer_eqb p peer); cbn in *;
             rewrite ?orb_true_r; auto; fail).
      rewrite !andb_true_iff in Hc. destruct Hc as [_ Hc].
      apply IH'; exact Hc.
Qed.

Lemma check_hooks_before_negotiation tr :
  check_hooks [] [] [] tr = true -> hooks_before_negotiation tr.
Proof.
  intros Hc p pre c post Ht Hn.
  exact (check_hooks_sound tr [] [] [] Hc p pre c post Ht Hn).
Qed.

(** ** The join procedure *)

Section Claims.

Context {lib : Library} {W : Type}.
Variable env : forall X : Type, NoirE X -> W -> W * X.

(** C4.  When [Manager.CreateClient] returns an error, [HandleJoin] makes no
    further call but the deferred unlock: it enqueues no reply, sets no
    hook, calls no engine method and starts no Peer Channel, and it returns
    that error to its caller. *)
Theorem HandleJoin_create_error_aborts signal w w1 w2 w3 peer err :
  env _ MuLock w = (w1, tt) ->
  env _ (CreateClient signal) w1 = (w2, (peer, Some err)) ->
  env _ MuUnlock w2 = (w3, tt) ->
  let tr := [mkCall MuLock tt;
             mkCall (CreateClient signal) (peer, Some err);
             mkCall MuUnlock tt] in
  finishes env (HandleJoin signal) w tr w3 (Returned (Some err)) /\
  enqueued tr = [] /\
  hooks_registered tr = [] /\
  engine_calls tr = [] /\
  spawned tr = [].
Proof.
  intros H1 H2 H3 tr. split; [| repeat split].
  assert (G : wp env (HandleJoin signal) w
                (fun tr' w' r => tr' = tr /\ w' = w3
                                 /\ r = Returned (Some err))).
  { unfold HandleJoin, HandleJoin_locked. wp_run. auto. }
  destruct G as (? & ? & ? & F & -> & -> & ->). exact F.
Qed.

(** The worker's dispatch hands that error on: for a join request [Handle]
    returns what [HandleJoin] returned. *)
Lemma Handle_returns_join_error request s w w0 w1 w2 w3 peer err :
  Action request = "request.signal.join" ->
  Command request = Some (NoirRequest_Signal s) ->
  env _ (Log Debug "handle %s") w = (w0, tt) ->
  env _ MuLock w0 = (w1, tt) ->
  env _ (CreateClient (Some s)) w1 = (w2, (peer, Some err)) ->
  env _ MuUnlock w2 = (w3, tt) ->
  finishes env (Handle request) w
    [mkCall (Log Debug "handle %s") tt;
     mkCall MuLock tt;
     mkCall (CreateClient (Some s)) (peer, Some err);
     mkCall MuUnlock tt]
    w3 (Returned (Some err)).
Proof.
  intros Ha Hc H0 H1 H2 H3.
  match goal with |- finishes _ ?t ?w ?tr ?w' ?r =>
    assert (G : wp env t w (fun tr0 w0 r0 => tr0 = tr /\ w0 = w' /\ r0 = r))
  end.
  { unfold Handle, HandleSignal, GetSignal. rewrite Ha, Hc.
    change (String.prefix "request.signal." "request.signal.join")
      with true.
    change ("request.signal.join" =? "request.signal.join") with true.
    unfold HandleJoin, HandleJoin_locked. wp_run. auto. }
  destruct G as (? & ? & ? & F & -> & -> & ->). exact F.
Qed.

(** C1.  A join request for which [Manager.CreateClient] gives a connection
    object makes [HandleJoin] hand exactly one reply to [EnqueueReply]: a
    Join answer, on the queue the Manager resolved for the connection's
    outbound topic, carrying the request's connection id and request id. *)
Theorem HandleJoin_enqueues_one_join_answer s j w w1 w2 peer :
  Payload s = Some (SignalRequest_Join j) ->
  env _ MuLock w = (w1, tt) ->
  env _ (CreateClient (Some s)) w1 = (w2, (Some peer, None)) ->
  exists tr w' recv send packed,
    finishes env (HandleJoin (Some s)) w tr w' (Returned None) /\
    resolved tr = [(KeyTopicToPeer (Id s), recv);
                   (KeyTopicFromPeer (Id s), send)] /\
    enqueued tr = [(send, JoinAnswer (Id s) (RequestId s) packed)] /\
    filter is_JoinAnswer (enqueued tr)
      = [(send, JoinAnswer (Id s) (RequestId s) packed)] /\
    Reply_Command (JoinAnswer (Id s) (RequestId s) packed)
      = Some (NoirReply_Signal
                {| Reply_Id := Id s;
                   Reply_RequestId := RequestId s;
                   Reply_Payload := Some (SignalReply_Join
                     {| JoinReply_Description := packed |}) |}).
Proof.
  intros Hj H1 H2.
  assert (G : wp env (HandleJoin (Some s)) w
                (fun tr _ r =>
                   r = Returned None /\
                   exists recv send packed,
                     resolved tr = [(KeyTopicToPeer (Id s), recv);
                                    (KeyTopicFromPeer (Id s), send)] /\
                     enqueued tr
                       = [(send, JoinAnswer (Id s) (RequestId s) packed)])).
  { unfold HandleJoin, HandleJoin_locked, GetJoin. rewrite Hj.
    wp_run. split; [reflexivity |]. cbn. eauto. }
  destruct G as (tr & w' & r & F & -> & recv & send & packed & Hr & He).
  exists tr, w', recv, send, packed.
  rewrite He. split; [exact F |]. split; [exact Hr |].
  repeat split; reflexivity.
Qed.

(** [HandleJoin] always comes back, whatever the request and whatever the
    collaborators answer. *)
Lemma HandleJoin_finishes signal w :
  exists tr w' r, finishes env (HandleJoin signal) w tr w' r.
Proof.
  assert (G : wp env (HandleJoin signal) w (fun _ _ _ => True)).
  { unfold HandleJoin, HandleJoin_locked. wp_run; exact I. }
  destruct G as (tr & w' & r & F & _). eauto.
Qed.

(** C7.  In every run of [HandleJoin], the engine's [Join] on the connection
    object comes after the assignments of that object's three hooks
    [OnIceCandidate], [OnICEConnectionStateChange] and [OnOffer]. *)
Theorem HandleJoin_hooks_before_negotiation signal w tr w' r :
  finishes env (HandleJoin signal) w tr w' r ->
  hooks_before_negotiation tr.
Proof.
  apply (wp_finishes env _ w (fun tr _ _ => hooks_before_negotiation tr)).
  apply wp_mono with (Q := fun tr _ _ => check_hooks [] [] [] tr = true).
  { intros ? ? ?. apply check_hooks_before_negotiation. }
  unfold HandleJoin, HandleJoin_locked. wp_run;
    cbn; rewrite ?Peer_eqb_refl; reflexivity.
Qed.

(** C8.  The error the engine's [Join] returns is dropped: whatever it is,
    nil or not, [HandleJoin] enqueues the Join answer built from the answer
    value [Join] returned, with the request's id, starts the Peer Channel and
    returns nil. *)
Theorem HandleJoin_drops_negotiation_error s j w tr w' r answer jerr :
  Payload s = Some (SignalRequest_Join j) ->
  finishes env (HandleJoin (Some s)) w tr w' r ->
  negotiations tr = [(answer, jerr)] ->
  r = Returned None /\
  exists send peer,
    In (KeyTopicFromPeer (Id s), send) (resolved tr) /\
    enqueued tr
      = [(send, JoinAnswer (Id s) (RequestId s)
                  (fst (json_Marshal_SessionDescription answer)))] /\
    enqueued tr
      = [(send,
          {| Reply_Command := Some (NoirReply_Signal
               {| Reply_Id := Id s;
                  Reply_RequestId := RequestId s;
                  Reply_Payload := Some (SignalReply_Join
                    {| JoinReply_Description :=
                         fst (json_Marshal_SessionDescription answer) |})
               |}) |})] /\
    spawned tr = [(Id s, Sid j, peer)].
Proof.
  intros Hj F. revert answer jerr.
  refine (wp_finishes env _ w
           (fun tr _ r => forall answer jerr,
              negotiations tr = [(answer, jerr)] ->
              r = Returned None /\
              exists send peer,
                In (KeyTopicFromPeer (Id s), send) (resolved tr) /\
                enqueued tr
                  = [(send, JoinAnswer (Id s) (RequestId s)
                        (fst (json_Marshal_SessionDescription answer)))] /\
                enqueued tr
                  = [(send,
                      {| Reply_Command := Some (NoirReply_Signal
                           {| Reply_Id := Id s;
                              Reply_RequestId := RequestId s;
                              Reply_Payload := Some (SignalReply_Join
                                {| JoinReply_Description :=
                                     fst (json_Marshal_SessionDescription
                                            answer) |}) |}) |})] /\
                spawned tr = [(Id s, Sid j, peer)]) tr w' r _ F).
  unfold HandleJoin, HandleJoin_locked, GetJoin. rewrite Hj.
  wp_run; intros answer jerr Hn; cbn in Hn; try discriminate.
  injection Hn as -> ->. split; [reflexivity |].
  match goal with H : json_Marshal_SessionDescription _ = _ |- _ =>
    rewrite H end.
  cbn. do 2 eexists.
  split; [right; left; reflexivity |]. repeat split; reflexivity.
Qed.

(** A request that reaches [HandleJoin] with another payload than Join is
    outside what C1 and C8 speak of: line 185 reads [join.Description] from
    the nil pointer [GetJoin] gave.  The hooks are set by then, the deferred
    unlock still runs, nothing is enqueued and no Peer Channel starts. *)
Lemma HandleJoin_without_join_payload_panics s w w1 w2 peer :
  GetJoin (Some s) = None ->
  env _ MuLock w = (w1, tt) ->
  env _ (CreateClient (Some s)) w1 = (w2, (Some peer, None)) ->
  exists tr w',
    finishes env (HandleJoin (Some s)) w tr w' Panicked /\
    length (hooks_registered tr) = 3 /\
    enqueued tr = [] /\ engine_calls tr = [] /\ spawned tr = [].
Proof.
  intros Hj H1 H2.
  assert (G : wp env (HandleJoin (Some s)) w
                (fun tr _ r =>
                   r = Panicked /\
                   length (hooks_registered tr) = 3 /\
                   enqueued tr = [] /\ engine_calls tr = [] /\
                   spawned tr = [])).
  { unfold HandleJoin, HandleJoin_locked. rewrite Hj.
    wp_run. repeat split; reflexivity. }
  destruct G as (tr & w' & ? & F & -> & G). eauto.
Qed.

(** ** The Peer Channel *)

(** [PeerChannel] resolves its two queues and enters the loop. *)
Lemma PeerChannel_enters_loop pid roomID peer w w1 w2 recv send tr w' :
  env _ (GetQueue (KeyTopicToPeer pid)) w = (w1, recv) ->
  env _ (GetQueue (KeyTopicFromPeer pid)) w1 = (w2, send) ->
  finishes env (PeerChannel_loop pid roomID peer recv send) w2 tr w' tt ->
  finishes env (PeerChannel pid roomID peer) w
    (mkCall (GetQueue (KeyTopicToPeer pid)) recv
     :: mkCall (GetQueue (KeyTopicFromPeer pid)) send :: tr) w' tt.
Proof.
  intros H1 H2 F. unfold PeerChannel.
  change (mkCall (GetQueue (KeyTopicToPeer pid)) recv
          :: mkCall (GetQueue (KeyTopicFromPeer pid)) send :: tr)
    with ([mkCall (GetQueue (KeyTopicToPeer pid)) recv]
          ++ [mkCall (GetQueue (KeyTopicFromPeer pid)) send] ++ tr).
  eapply finishes_bind; [apply finishes_call, H1 |].
  eapply finishes_bind; [apply finishes_call, H2 | exact F].
Qed.


(** C3.  A pass of the loop that finds a Kill payload logs it, calls
    [Manager.CloseClient] with the connection's id once and returns from
    [PeerChannel]: the loop ends there, and nothing was enqueued. *)
Theorem PeerChannel_kill_closes_and_returns
  pid roomID peer recv send w w1 message popErr request unmarshalErr signal b :
  env _ (BlockUntilNext recv 0) w = (w1, (message, popErr)) ->
  UnmarshalRequest message NoirRequest_zero = (request, unmarshalErr) ->
  Command request = Some (NoirRequest_Signal signal) ->
  Payload signal = Some (SignalRequest_Kill b) ->
  let tr := mkCall (BlockUntilNext recv 0) (message, popErr)
            :: error_log_calls popErr unmarshalErr
            ++ [mkCall (Log Debug "got KillRequest for peer %s") tt;
                mkCall (CloseClient pid) tt] in
  exists w',
    finishes env (PeerChannel_loop pid roomID peer recv send) w tr w' tt /\
    closed tr = [pid] /\
    enqueued tr = [] /\
    engine_calls tr = [].
Proof.
  intros H1 H2 H3 H4 tr.
  assert (G : wp env (PeerChannel_body pid roomID peer recv send) w
                (fun tr' _ r => tr' = tr /\ r = inr tt)).
  { unfold PeerChannel_body, PeerChannel_dispatch. wp_run; auto. }
  destruct G as (? & w' & ? & F & -> & ->).
  exists w'. split; [apply iter_returns, F |].
  subst tr. destruct popErr, unmarshalErr; repeat split; reflexivity.
Qed.

(** C6.  A pass that finds a Description payload decoding to an SDP answer
    applies it once with the engine's [SetRemoteDescription], enqueues
    nothing and goes round. *)
Theorem PeerChannel_answer_sets_remote_description
  pid roomID peer recv send w w1 message popErr request unmarshalErr signal
  description desc :
  env _ (BlockUntilNext recv 0) w = (w1, (message, popErr)) ->
  UnmarshalRequest message NoirRequest_zero = (request, unmarshalErr) ->
  Command request = Some (NoirRequest_Signal signal) ->
  Payload signal = Some (SignalRequest_Description description) ->
  json_Unmarshal_Negotiation description Negotiation_zero = (desc, None) ->
  Type_ (Desc desc) = SDPTypeAnswer ->
  exists tr w',
    finishes env (PeerChannel_body pid roomID peer recv send) w tr w'
      (inl tt) /\
    remote_descriptions_applied tr = [(peer, Desc desc)] /\
    length (engine_calls tr) = 1 /\
    enqueued tr = [].
Proof.
  intros H1 H2 H3 H4 H5 H6.
  assert (G : wp env (PeerChannel_body pid roomID peer recv send) w
                (fun tr _ r =>
                   r = inl tt /\
                   remote_descriptions_applied tr = [(peer, Desc desc)] /\
                   length (engine_calls tr) = 1 /\
                   enqueued tr = [])).
  { unfold PeerChannel_body, PeerChannel_dispatch.
    wp_run; repeat split; reflexivity. }
  destruct G as (tr & w' & ? & F & -> & G). eauto.
Qed.

(** C9.  A pass that finds a Description payload decoding to an SDP type
    that is neither answer nor offer makes no call at all after the pop and
    the two error checks: no engine call, no reply, no log entry of its own;
    it goes round. *)
Theorem PeerChannel_other_sdp_type_skipped
  pid roomID peer recv send w w1 message popErr request unmarshalErr signal
  description desc :
  env _ (BlockUntilNext recv 0) w = (w1, (message, popErr)) ->
  UnmarshalRequest message NoirRequest_zero = (request, unmarshalErr) ->
  Command request = Some (NoirRequest_Signal signal) ->
  Payload signal = Some (SignalRequest_Description description) ->
  json_Unmarshal_Negotiation description Negotiation_zero = (desc, None) ->
  Type_ (Desc desc) <> SDPTypeAnswer ->
  Type_ (Desc desc) <> SDPTypeOffer ->
  let tr := mkCall (BlockUntilNext recv 0) (message, popErr)
            :: error_log_calls popErr unmarshalErr in
  exists w',
    finishes env (PeerChannel_body pid roomID peer recv send) w tr w'
      (inl tt) /\
    engine_calls tr = [] /\
    enqueued tr = [] /\
    (popErr = None -> unmarshalErr = None -> logged tr = []).
Proof.
  intros H1 H2 H3 H4 H5 H6 H7 tr.
  assert (G : wp env (PeerChannel_body pid roomID peer recv send) w
                (fun tr' _ r => tr' = tr /\ r = inl tt)).
  { unfold PeerChannel_body, PeerChannel_dispatch.
    destruct (Type_ (Desc desc)) eqn:T; try congruence; wp_run; auto. }
  destruct G as (? & w' & ? & F & -> & ->).
  exists w'. split; [exact F |].
  subst tr. split; [| split].
  - destruct popErr, unmarshalErr; reflexivity.
  - destruct popErr, unmarshalErr; reflexivity.
  - intros -> ->. reflexivity.
Qed.



Lemma offer_rejected_not_accepted tr :
  offer_rejected tr -> offer_accepted tr -> False.
Proof.
  intros [(rd & e & Hr & Hv) | (rd & v & e & Hr & Hv)] (rd' & v' & Hr' & Hv');
    congruence.
Qed.

(** C2.  A pass that finds a Description payload decoding to an SDP offer
    asks the Manager for the room data and, if that succeeds, to validate
    the offer.  If either call returns an error, nothing is enqueued and the
    engine's [Answer] is not called; if both succeed, [Answer] is called once
    with the offer and exactly one reply is enqueued, a Description reply
    with the request's id.  In both cases the loop goes round. *)
Theorem PeerChannel_offer_answered_only_when_valid
  pid roomID peer recv send w w1 message popErr request unmarshalErr signal
  description desc :
  env _ (BlockUntilNext recv 0) w = (w1, (message, popErr)) ->
  UnmarshalRequest message NoirRequest_zero = (request, unmarshalErr) ->
  Command request = Some (NoirRequest_Signal signal) ->
  Payload signal = Some (SignalRequest_Description description) ->
  json_Unmarshal_Negotiation description Negotiation_zero = (desc, None) ->
  Type_ (Desc desc) = SDPTypeOffer ->
  exists tr w',
    finishes env (PeerChannel_body pid roomID peer recv send) w tr w'
      (inl tt) /\
    (offer_rejected tr \/ offer_accepted tr) /\
    (offer_rejected tr ->
       enqueued tr = [] /\ answers_computed tr = [] /\
       engine_calls tr = []) /\
    (offer_accepted tr ->
       answers_computed tr = [(peer, Desc desc)] /\
       length (engine_calls tr) = 1 /\
       exists bytes,
         enqueued tr
           = [(send, DescriptionReply pid (RequestId signal) bytes)] /\
         enqueued tr
           = [(send,
               {| Reply_Command := Some (NoirReply_Signal
                    {| Reply_Id := pid;
                       Reply_RequestId := RequestId signal;
                       Reply_Payload :=
                         Some (SignalReply_Description bytes) |}) |})]).
Proof.
  intros H1 H2 H3 H4 H5 H6.
  assert (G : wp env (PeerChannel_body pid roomID peer recv send) w
                (fun tr _ r =>
                   r = inl tt /\
                   ((offer_rejected tr /\
                     enqueued tr = [] /\ answers_computed tr = [] /\
                     engine_calls tr = []) \/
                    (offer_accepted tr /\
                     answers_computed tr = [(peer, Desc desc)] /\
                     length (engine_calls tr) = 1 /\
                     exists bytes,
                       enqueued tr
                         = [(send,
                             DescriptionReply pid (RequestId signal)
                               bytes)] /\
                       enqueued tr
                         = [(send,
                             {| Reply_Command := Some (NoirReply_Signal
                                  {| Reply_Id := pid;
                                     Reply_RequestId := RequestId signal;
                                     Reply_Payload :=
                                       Some (SignalReply_Description bytes)
                                  |}) |})])))).
  { unfold PeerChannel_body, PeerChannel_dispatch.
    wp_run; (split; [reflexivity |]);
      first
        [ left; split;
          [ first [ left; do 2 eexists; split; reflexivity
                  | right; do 3 eexists; split; reflexivity ]
          | repeat split; reflexivity ]
        | right; split;
          [ do 2 eexists; split; reflexivity
          | repeat split; try reflexivity;
            eexists; split; reflexivity ] ]. }
  destruct G as (tr & w' & ? & F & -> & [(R & G) | (A & G)]);
    exists tr, w'; (split; [exact F |]); (split; [auto |]); split;
    intros X; try exact G;
    exfalso; eapply offer_rejected_not_accepted; eassumption.
Qed.

(** The drops of the loop that hold as the specification says: a Description
    payload or an ICE candidate that does not decode, and a signal whose
    payload the loop has no case for, are logged; nothing else is called,
    and the loop goes round. *)

(** X24.  A pass that finds a Description payload that does not decode as a
    Negotiation logs the error and goes round: apart from the pop and the
    error checks it makes that one log call, so no engine call, no reply and
    no [CloseClient]. *)
Lemma PeerChannel_bad_description_dropped
  pid roomID peer recv send w w1 message popErr request unmarshalErr signal
  description desc e :
  env _ (BlockUntilNext recv 0) w = (w1, (message, popErr)) ->
  UnmarshalRequest message NoirRequest_zero = (request, unmarshalErr) ->
  Command request = Some (NoirRequest_Signal signal) ->
  Payload signal = Some (SignalRequest_Description description) ->
  json_Unmarshal_Negotiation description Negotiation_zero = (desc, Some e) ->
  let tr := mkCall (BlockUntilNext recv 0) (message, popErr)
            :: error_log_calls popErr unmarshalErr
            ++ [mkCall (Log Error "unmarshal err: %s") tt] in
  exists w',
    finishes env (PeerChannel_body pid roomID peer recv send) w tr w'
      (inl tt) /\
    engine_calls tr = [] /\ enqueued tr = [] /\ closed tr = [].
Proof.
  intros H1 H2 H3 H4 H5 tr.
  assert (G : wp env (PeerChannel_body pid roomID peer recv send) w
                (fun tr' _ r => tr' = tr /\ r = inl tt)).
  { unfold PeerChannel_body, PeerChannel_dispatch. wp_run; auto. }
  destruct G as (? & w' & ? & F & -> & ->).
  exists w'. split; [exact F |].
  subst tr. destruct popErr, unmarshalErr; repeat split; reflexivity.
Qed.

(** X25.  A pass that finds a Trickle payload whose candidate does not
    decode logs the error and goes round: the engine's [Trickle] is not
    called, nothing is enqueued. *)
Lemma PeerChannel_bad_candidate_dropped
  pid roomID peer recv send w w1 message popErr request unmarshalErr signal
  trickle candidate e :
  env _ (BlockUntilNext recv 0) w = (w1, (message, popErr)) ->
  UnmarshalRequest message NoirRequest_zero = (request, unmarshalErr) ->
  Command request = Some (NoirRequest_Signal signal) ->
  Payload signal = Some (SignalRequest_Trickle trickle) ->
  json_Unmarshal_ICECandidateInit (Init trickle) ICECandidateInit_zero
    = (candidate, Some e) ->
  let tr := mkCall (BlockUntilNext recv 0) (message, popErr)
            :: error_log_calls popErr unmarshalErr
            ++ [mkCall (Log Error "unmarshal err: %s %s") tt] in
  exists w',
    finishes env (PeerChannel_body pid roomID peer recv send) w tr w'
      (inl tt) /\
    engine_calls tr = [] /\ enqueued tr = [] /\ closed tr = [].
Proof.
  intros H1 H2 H3 H4 H5 tr.
  assert (G : wp env (PeerChannel_body pid roomID peer recv send) w
                (fun tr' _ r => tr' = tr /\ r = inl tt)).
  { unfold PeerChannel_body, PeerChannel_dispatch. wp_run; auto. }
  destruct G as (? & w' & ? & F & -> & ->).
  exists w'. split; [exact F |].
  subst tr. destruct popErr, unmarshalErr; repeat split; reflexivity.
Qed.

(** X26.  A pass that finds a signal with no payload, or with a Join
    payload, which the loop has no case for, logs the unknown signal and
    goes round: no engine call, no reply, no [CloseClient]. *)
Lemma PeerChannel_unknown_payload_dropped
  pid roomID peer recv send w w1 message popErr request unmarshalErr signal :
  env _ (BlockUntilNext recv 0) w = (w1, (message, popErr)) ->
  UnmarshalRequest message NoirRequest_zero = (request, unmarshalErr) ->
  Command request = Some (NoirRequest_Signal signal) ->
  (Payload signal = None \/
   exists j, Payload signal = Some (SignalRequest_Join j)) ->
  let tr := mkCall (BlockUntilNext recv 0) (message, popErr)
            :: error_log_calls popErr unmarshalErr
            ++ [mkCall (Log Error "unknown signal for peer %s") tt] in
  exists w',
    finishes env (PeerChannel_body pid roomID peer recv send) w tr w'
      (inl tt) /\
    engine_calls tr = [] /\ enqueued tr = [] /\ closed tr = [].
Proof.
  intros H1 H2 H3 H4 tr.
  assert (G : wp env (PeerChannel_body pid roomID peer recv send) w
                (fun tr' _ r => tr' = tr /\ r = inl tt)).
  { unfold PeerChannel_body, PeerChannel_dispatch.
    destruct H4 as [H4 | (j & H4)]; wp_run; auto. }
  destruct G as (? & w' & ? & F & -> & ->).
  exists w'. split; [exact F |].
  subst tr. destruct popErr, unmarshalErr; repeat split; reflexivity.
Qed.

End Claims.

(** ** Runs against the example collaborators *)

Lemma example_join_run :
  finishes example_env (HandleJoin (lib := example_library)
                          (Some example_join))
    [] example_join_trace [] (Returned None).
Proof.
  assert (G : wp example_env
                (HandleJoin (lib := example_library) (Some example_join)) []
                (fun tr w r => tr = example_join_trace /\ w = []
                               /\ r = Returned None)).
  { unfold HandleJoin, HandleJoin_locked, GetJoin, example_join,
      example_signal.
    cbn [Payload Id RequestId Sid Description].
    wp_run. repeat split; reflexivity. }
  destruct G as (? & ? & ? & F & -> & -> & ->). exact F.
Qed.

Lemma example_bad_join_run :
  finishes example_env (HandleJoin (lib := example_library)
                          (Some example_bad_join))
    [] example_bad_join_trace [] (Returned None).
Proof.
  assert (G : wp example_env
                (HandleJoin (lib := example_library) (Some example_bad_join))
                []
                (fun tr w r => tr = example_bad_join_trace /\ w = []
                               /\ r = Returned None)).
  { unfold HandleJoin, HandleJoin_locked, GetJoin, example_bad_join,
      example_signal.
    cbn [Payload Id RequestId Sid Description].
    wp_run. repeat split; reflexivity. }
  destruct G as (? & ? & ? & F & -> & -> & ->). exact F.
Qed.

(** C5.  The drops of a Description payload, of an ICE candidate and of an
    unknown payload are as stated (the three lemmas above), but a message
    that fails to decode as a request is not dropped: lines 220-223 log the
    error and go on to the [switch] with whatever the decoder left in the
    request.  Here the inbound queue delivers a message whose decoding stores
    a Kill signal and then reports an error: the pass logs the error, calls
    [CloseClient] and returns, so the loop ends on a malformed message. *)
Theorem PeerChannel_undecodable_request_still_dispatched :
  UnmarshalRequest (Library := example_library)
    "kill, cut short" NoirRequest_zero
    = (example_request (SignalRequest_Kill true), Some "unexpected EOF") /\
  finishes example_env
    (PeerChannel_loop (lib := example_library)
       "peerA" "room1" (PeerHandle 1) (QueueHandle 8) (QueueHandle 10))
    [("kill, cut short", None)]
    [mkCall (BlockUntilNext (QueueHandle 8) 0) ("kill, cut short", None);
     mkCall (Log Error "unmarshal message to peer %s") tt;
     mkCall (Log Debug "got KillRequest for peer %s") tt;
     mkCall (CloseClient "peerA") tt]
    [] tt.
Proof.
  split; [reflexivity |].
  apply iter_returns.
  assert (D : UnmarshalRequest (Library := example_library)
                "kill, cut short" NoirRequest_zero
              = ({| Action := "request.signal.";
                    Command := Some (NoirRequest_Signal
                      {| Id := "peerA"; RequestId := "req-7";
                         Payload := Some (SignalRequest_Kill true) |}) |},
                 Some "unexpected EOF")) by reflexivity.
  match goal with |- finishes _ ?t ?w ?tr ?w' ?r =>
    assert (G : wp example_env t w
                  (fun tr0 w0 r0 => tr0 = tr /\ w0 = w' /\ r0 = r))
  end.
  { unfold PeerChannel_body, PeerChannel_dispatch. wp_run. auto. }
  destruct G as (? & ? & ? & F & -> & -> & ->). exact F.
Qed.

(** ** The theorems at the example collaborators *)

Lemma HandleJoin_enqueues_one_join_answer_witness :
  Payload example_join
    = Some (SignalRequest_Join {| Sid := "room1"; Description := "v=0" |}) /\
  example_env _ MuLock [] = ([], tt) /\
  example_env _ (CreateClient (Some example_join)) []
    = ([], (Some (PeerHandle 1), None)) /\
  exists tr w' recv send packed,
    finishes example_env
      (HandleJoin (lib := example_library) (Some example_join))
      [] tr w' (Returned None) /\
    resolved tr = [("to/peerA", recv); ("from/peerA", send)] /\
    enqueued tr = [(send, JoinAnswer "peerA" "req-7" packed)] /\
    filter is_JoinAnswer (enqueued tr)
      = [(send, JoinAnswer "peerA" "req-7" packed)] /\
    Reply_Command (JoinAnswer "peerA" "req-7" packed)
      = Some (NoirReply_Signal
                {| Reply_Id := "peerA";
                   Reply_RequestId := "req-7";
                   Reply_Payload := Some (SignalReply_Join
                     {| JoinReply_Description := packed |}) |}).
Proof.
  split; [reflexivity |]. split; [reflexivity |]. split; [reflexivity |].
  exact (HandleJoin_enqueues_one_join_answer (lib := example_library)
           example_env example_join
           {| Sid := "room1"; Description := "v=0" |} [] [] []
           (PeerHandle 1) eq_refl eq_refl eq_refl).
Defined.

Lemma HandleJoin_create_error_aborts_witness :
  example_env _ MuLock [] = ([], tt) /\
  example_env _ (CreateClient (Some example_anonymous_join)) []
    = ([], (None, Some "no connection id")) /\
  example_env _ MuUnlock [] = ([], tt) /\
  finishes example_env
    (HandleJoin (lib := example_library) (Some example_anonymous_join)) []
    [mkCall MuLock tt;
     mkCall (CreateClient (Some example_anonymous_join))
       (None, Some "no connection id");
     mkCall MuUnlock tt]
    [] (Returned (Some "no connection id")).
Proof.
  split; [reflexivity |]. split; [reflexivity |]. split; [reflexivity |].
  exact (proj1 (HandleJoin_create_error_aborts (lib := example_library)
                  example_env (Some example_anonymous_join) [] [] [] []
                  None "no connection id" eq_refl eq_refl eq_refl)).
Defined.

Lemma HandleJoin_hooks_before_negotiation_witness :
  finishes example_env
    (HandleJoin (lib := example_library) (Some example_join))
    [] example_join_trace [] (Returned None) /\
  negotiations example_join_trace
    = [(Some {| Type_ := SDPTypeAnswer; SDP := "v=0 a" |}, None)] /\
  hooks_before_negotiation example_join_trace.
Proof.
  split; [exact example_join_run |]. split; [reflexivity |].
  exact (HandleJoin_hooks_before_negotiation (lib := example_library)
           example_env (Some example_join) [] example_join_trace []
           (Returned None) example_join_run).
Defined.

Lemma HandleJoin_drops_negotiation_error_witness :
  Payload example_bad_join
    = Some (SignalRequest_Join {| Sid := "room1"; Description := "bad" |}) /\
  finishes example_env
    (HandleJoin (lib := example_library) (Some example_bad_join))
    [] example_bad_join_trace [] (Returned None) /\
  negotiations example_bad_join_trace = [(None, Some "join failed")] /\
  exists send peer,
    In ("from/peerA", send) (resolved example_bad_join_trace) /\
    enqueued example_bad_join_trace
      = [(send, JoinAnswer "peerA" "req-7" "null")] /\
    enqueued example_bad_join_trace
      = [(send,
          {| Reply_Command := Some (NoirReply_Signal
               {| Reply_Id := "peerA";
                  Reply_RequestId := "req-7";
                  Reply_Payload := Some (SignalReply_Join
                    {| JoinReply_Description := "null" |}) |}) |})] /\
    spawned example_bad_join_trace = [("peerA", "room1", peer)].
Proof.
  split; [reflexivity |]. split; [exact example_bad_join_run |].
  split; [reflexivity |].
  exact (proj2 (HandleJoin_drops_negotiation_error (lib := example_library)
                  example_env example_bad_join
                  {| Sid := "room1"; Description := "bad" |} []
                  example_bad_join_trace [] (Returned None)
                  None (Some "join failed")
                  eq_refl example_bad_join_run eq_refl)).
Defined.

Lemma PeerChannel_kill_closes_and_returns_witness :
  example_env _ (BlockUntilNext (QueueHandle 8) 0) [("kill", None)]
    = ([], ("kill", None)) /\
  UnmarshalRequest (Library := example_library) "kill" NoirRequest_zero
    = (example_request (SignalRequest_Kill true), None) /\
  Command (example_request (SignalRequest_Kill true))
    = Some (NoirRequest_Signal (example_signal (SignalRequest_Kill true))) /\
  Payload (example_signal (SignalRequest_Kill true))
    = Some (SignalRequest_Kill true) /\
  exists w',
    finishes example_env
      (PeerChannel_loop (lib := example_library)
         "peerA" "room1" (PeerHandle 1) (QueueHandle 8) (QueueHandle 10))
      [("kill", None)]
      [mkCall (BlockUntilNext (QueueHandle 8) 0) ("kill", None);
       mkCall (Log Debug "got KillRequest for peer %s") tt;
       mkCall (CloseClient "peerA") tt]
      w' tt.
Proof.
  split; [reflexivity |]. split; [reflexivity |]. split; [reflexivity |].
  split; [reflexivity |].
  destruct (PeerChannel_kill_closes_and_returns (lib := example_library)
              example_env "peerA" "room1" (PeerHandle 1) (QueueHandle 8)
              (QueueHandle 10) [("kill", None)] [] "kill" None
              (example_request (SignalRequest_Kill true)) None
              (example_signal (SignalRequest_Kill true)) true
              eq_refl eq_refl eq_refl eq_refl) as (w' & F & _).
  exists w'. exact F.
Defined.

Lemma PeerChannel_offer_answered_only_when_valid_witness :
  example_env _ (BlockUntilNext (QueueHandle 8) 0) [("offer", None)]
    = ([], ("offer", None)) /\
  UnmarshalRequest (Library := example_library) "offer" NoirRequest_zero
    = (example_request (SignalRequest_Description "{offer}"), None) /\
  json_Unmarshal_Negotiation (Library := example_library)
    "{offer}" Negotiation_zero
    = ({| Desc := {| Type_ := SDPTypeOffer; SDP := "v=0 o" |} |}, None) /\
  exists tr w',
    finishes example_env
      (PeerChannel_body (lib := example_library)
         "peerA" "room1" (PeerHandle 1) (QueueHandle 8) (QueueHandle 10))
      [("offer", None)] tr w' (inl tt) /\
    (offer_rejected tr \/ offer_accepted tr) /\
    (offer_rejected tr ->
       enqueued tr = [] /\ answers_computed tr = [] /\
       engine_calls tr = []) /\
    (offer_accepted tr ->
       answers_computed tr
         = [(PeerHandle 1, {| Type_ := SDPTypeOffer; SDP := "v=0 o" |})] /\
       length (engine_calls tr) = 1 /\
       exists bytes,
         enqueued tr
           = [(QueueHandle 10, DescriptionReply "peerA" "req-7" bytes)] /\
         enqueued tr
           = [(QueueHandle 10,
               {| Reply_Command := Some (NoirReply_Signal
                    {| Reply_Id := "peerA";
                       Reply_RequestId := "req-7";
                       Reply_Payload :=
                         Some (SignalReply_Description bytes) |}) |})]).
Proof.
  split; [reflexivity |]. split; [reflexivity |]. split; [reflexivity |].
  exact (PeerChannel_offer_answered_only_when_valid (lib := example_library)
           example_env "peerA" "room1" (PeerHandle 1) (QueueHandle 8)
           (QueueHandle 10) [("offer", None)] [] "offer" None
           (example_request (SignalRequest_Description "{offer}")) None
           (example_signal (SignalRequest_Description "{offer}")) "{offer}"
           {| Desc := {| Type_ := SDPTypeOffer; SDP := "v=0 o" |} |}
           eq_refl eq_refl eq_refl eq_refl eq_refl eq_refl).
Defined.

Lemma PeerChannel_answer_sets_remote_description_witness :
  example_env _ (BlockUntilNext (QueueHandle 8) 0) [("answer", None)]
    = ([], ("answer", None)) /\
  UnmarshalRequest (Library := example_library) "answer" NoirRequest_zero
    = (example_request (SignalRequest_Description "{answer}"), None) /\
  json_Unmarshal_Negotiation (Library := example_library)
    "{answer}" Negotiation_zero
    = ({| Desc := {| Type_ := SDPTypeAnswer; SDP := "v=0 a" |} |}, None) /\
  exists tr w',
    finishes example_env
      (PeerChannel_body (lib := example_library)
         "peerA" "room1" (PeerHandle 1) (QueueHandle 8) (QueueHandle 10))
      [("answer", None)] tr w' (inl tt) /\
    remote_descriptions_applied tr
      = [(PeerHandle 1, {| Type_ := SDPTypeAnswer; SDP := "v=0 a" |})] /\
    length (engine_calls tr) = 1 /\
    enqueued tr = [].
Proof.
  split; [reflexivity |]. split; [reflexivity |]. split; [reflexivity |].
  exact (PeerChannel_answer_sets_remote_description
           (lib := example_library)
           example_env "peerA" "room1" (PeerHandle 1) (QueueHandle 8)
           (QueueHandle 10) [("answer", None)] [] "answer" None
           (example_request (SignalRequest_Description "{answer}")) None
           (example_signal (SignalRequest_Description "{answer}")) "{answer}"
           {| Desc := {| Type_ := SDPTypeAnswer; SDP := "v=0 a" |} |}
           eq_refl eq_refl eq_refl eq_refl eq_refl eq_refl).
Defined.

Lemma PeerChannel_other_sdp_type_skipped_witness :
  example_env _ (BlockUntilNext (QueueHandle 8) 0) [("pranswer", None)]
    = ([], ("pranswer", None)) /\
  UnmarshalRequest (Library := example_library) "pranswer" NoirRequest_zero
    = (example_request (SignalRequest_Description "{pranswer}"), None) /\
  json_Unmarshal_Negotiation (Library := example_library)
    "{pranswer}" Negotiation_zero
    = ({| Desc := {| Type_ := SDPTypePranswer; SDP := "v=0 p" |} |}, None) /\
  SDPTypePranswer <> SDPTypeAnswer /\
  SDPTypePranswer <> SDPTypeOffer /\
  exists w',
    finishes example_env
      (PeerChannel_body (lib := example_library)
         "peerA" "room1" (PeerHandle 1) (QueueHandle 8) (QueueHandle 10))
      [("pranswer", None)]
      [mkCall (BlockUntilNext (QueueHandle 8) 0) ("pranswer", None)]
      w' (inl tt).
Proof.
  split; [reflexivity |]. split; [reflexivity |]. split; [reflexivity |].
  split; [discriminate |]. split; [discriminate |].
  destruct (PeerChannel_other_sdp_type_skipped (lib := example_library)
              example_env "peerA" "room1" (PeerHandle 1) (QueueHandle 8)
              (QueueHandle 10) [("pranswer", None)] [] "pranswer" None
              (example_request (SignalRequest_Description "{pranswer}")) None
              (example_signal (SignalRequest_Description "{pranswer}"))
              "{pranswer}"
              {| Desc := {| Type_ := SDPTypePranswer; SDP := "v=0 p" |} |}
              eq_refl eq_refl eq_refl eq_refl eq_refl
              ltac:(discriminate) ltac:(discriminate)) as (w' & F & _).
  exists w'. exact F.
Defined.


(** ** The worker's dispatch *)

Section Dispatch.

Context {lib : Library} {W : Type}.
Variable env : forall X : Type, NoirE X -> W -> W * X.

(** X1.  [Handle] ignores a request whose action has neither the signal nor
    the room-admin prefix: it writes its debug log, calls nothing else and
    returns nil. *)
Theorem Handle_ignores_other_actions request w w1 :
  String.prefix "request.signal." (Action request) = false ->
  String.prefix "request.roomadmin." (Action request) = false ->
  env _ (Log Debug "handle %s") w = (w1, tt) ->
  finishes env (Handle request) w
    [mkCall (Log Debug "handle %s") tt] w1 (Returned None).
Proof.
  intros Hs Ha H0.
  match goal with |- finishes _ ?t ?w ?tr ?w' ?r =>
    assert (G : wp env t w (fun tr0 w0 r0 => tr0 = tr /\ w0 = w' /\ r0 = r))
  end.
  { unfold Handle. wp_run. auto. }
  destruct G as (? & ? & ? & F & -> & -> & ->). exact F.
Qed.

(** X2.  Of the signal actions [Handle] acts on the join only: for any other
    action with the signal prefix it takes no lock, creates no connection
    object and returns nil after its debug log, whatever payload the request
    carries. *)
Theorem Handle_ignores_other_signal_actions request w w1 :
  String.prefix "request.signal." (Action request) = true ->
  Action request <> "request.signal.join" ->
  env _ (Log Debug "handle %s") w = (w1, tt) ->
  finishes env (Handle request) w
    [mkCall (Log Debug "handle %s") tt] w1 (Returned None).
Proof.
  intros Hs Ha H0.
  apply String.eqb_neq in Ha.
  match goal with |- finishes _ ?t ?w ?tr ?w' ?r =>
    assert (G : wp env t w (fun tr0 w0 r0 => tr0 = tr /\ w0 = w' /\ r0 = r))
  end.
  { unfold Handle, HandleSignal. wp_run. auto. }
  destruct G as (? & ? & ? & F & -> & -> & ->). exact F.
Qed.

(** X3.  A room-admin request opens a room only for the action
    [request.roomadmin.openroom], and then hands the Manager what
    [GetRoomAdmin] gives: the request's room-admin command, or nil when the
    request carries another command.  Every other room-admin action does
    nothing.  Both return nil. *)
Theorem Handle_roomadmin_opens_room_only request w w1 :
  String.prefix "request.signal." (Action request) = false ->
  String.prefix "request.roomadmin." (Action request) = true ->
  env _ (Log Debug "handle %s") w = (w1, tt) ->
  exists tr w',
    finishes env (Handle request) w tr w' (Returned None) /\
    rooms_opened tr
      = (if Action request =? "request.roomadmin.openroom"
         then [GetRoomAdmin request] else []) /\
    length tr
      = (if Action request =? "request.roomadmin.openroom" then 2 else 1).
Proof.
  intros Hs Ha H0.
  assert (G : wp env (Handle request) w
                (fun tr _ r =>
                   r = Returned None /\
                   rooms_opened tr
                     = (if Action request =? "request.roomadmin.openroom"
                        then [GetRoomAdmin request] else []) /\
                   length tr
                     = (if Action request =? "request.roomadmin.openroom"
                        then 2 else 1))).
  { unfold Handle, HandleRoomAdmin.
    destruct (Action request =? "request.roomadmin.openroom") eqn:Ho;
      wp_run; repeat split; reflexivity. }
  destruct G as (tr & w' & ? & F & -> & G). eauto.
Qed.

(** X4.  For the join action [Handle] is its debug log followed by
    [HandleJoin] on the request's signal, whatever [HandleJoin] does: the
    same calls, the same result. *)
Theorem Handle_join_runs_HandleJoin request w w1 tr w' r :
  Action request = "request.signal.join" ->
  env _ (Log Debug "handle %s") w = (w1, tt) ->
  finishes env (HandleJoin (GetSignal request)) w1 tr w' r ->
  finishes env (Handle request) w
    (mkCall (Log Debug "handle %s") tt :: tr) w' r.
Proof.
  intros Ha H0 F. unfold Handle, HandleSignal. rewrite Ha.
  change (String.prefix "request.signal." "request.signal.join") with true.
  change ("request.signal.join" =? "request.signal.join") with true.
  cbv iota.
  change (mkCall (Log Debug "handle %s") tt :: tr)
    with ([mkCall (Log Debug "handle %s") tt] ++ tr).
  eapply finishes_bind; [apply finishes_call, H0 | exact F].
Qed.

(** X5.  When the pop on the worker's queue returns an error, [HandleNext]
    logs it and returns it: the message that came with the error is not
    decoded and nothing is dispatched. *)
Theorem HandleNext_returns_pop_error wk timeout w w1 w2 msg e :
  env _ (BlockUntilNext (queue wk) timeout) w = (w1, (msg, Some e)) ->
  env _ (Log Error "queue error %s") w1 = (w2, tt) ->
  finishes env (HandleNext wk timeout) w
    [mkCall (BlockUntilNext (queue wk) timeout) (msg, Some e);
     mkCall (Log Error "queue error %s") tt]
    w2 (Returned (Some e)).
Proof.
  intros H1 H2.
  match goal with |- finishes _ ?t ?w ?tr ?w' ?r =>
    assert (G : wp env t w (fun tr0 w0 r0 => tr0 = tr /\ w0 = w' /\ r0 = r))
  end.
  { unfold HandleNext, NextCommand. wp_run. auto. }
  destruct G as (? & ? & ? & F & -> & -> & ->). exact F.
Qed.

(** X6.  When the message does not decode, [HandleNext] logs the error and
    returns it without dispatching, whatever the decoder left in the
    request. *)
Theorem HandleNext_returns_parse_error wk timeout w w1 w2 msg request e :
  env _ (BlockUntilNext (queue wk) timeout) w = (w1, (msg, None)) ->
  UnmarshalRequest msg NoirRequest_zero = (request, Some e) ->
  env _ (Log Error "message parse error: %s") w1 = (w2, tt) ->
  finishes env (HandleNext wk timeout) w
    [mkCall (BlockUntilNext (queue wk) timeout) (msg, None);
     mkCall (Log Error "message parse error: %s") tt]
    w2 (Returned (Some e)).
Proof.
  intros H1 H2 H3.
  match goal with |- finishes _ ?t ?w ?tr ?w' ?r =>
    assert (G : wp env t w (fun tr0 w0 r0 => tr0 = tr /\ w0 = w' /\ r0 = r))
  end.
  { unfold HandleNext, NextCommand. wp_run. auto. }
  destruct G as (? & ? & ? & F & -> & -> & ->). exact F.
Qed.

(** X7.  When the pop and the decoder both succeed, [HandleNext] is the pop
    followed by [Handle] on the decoded request. *)
Theorem HandleNext_dispatches_decoded_request
  wk timeout w w1 msg request tr w' r :
  env _ (BlockUntilNext (queue wk) timeout) w = (w1, (msg, None)) ->
  UnmarshalRequest msg NoirRequest_zero = (request, None) ->
  finishes env (Handle request) w1 tr w' r ->
  finishes env (HandleNext wk timeout) w
    (mkCall (BlockUntilNext (queue wk) timeout) (msg, None) :: tr) w' r.
Proof.
  intros H1 H2 F. unfold HandleNext, NextCommand.
  eapply finishes_eutt; [rewrite bind_bind; reflexivity |].
  change (mkCall (BlockUntilNext (queue wk) timeout) (msg, None) :: tr)
    with ([mkCall (BlockUntilNext (queue wk) timeout) (msg, None)] ++ tr).
  eapply finishes_bind; [apply finishes_call, H1 |].
  cbv beta iota. rewrite H2.
  eapply finishes_eutt; [rewrite bind_ret_l; reflexivity |].
  exact F.
Qed.

(** X8.  A pass of the worker's loop in which the pop fails or the message
    does not decode costs exactly four calls: the pop, the log of the error
    where it arose, the log of the handler error and a sleep of one second;
    then the loop goes round. *)
Theorem HandleForever_backs_off_after_error
  wk w w1 w2 w3 w4 msg popErr request parseErr :
  env _ (BlockUntilNext (queue wk) 0) w = (w1, (msg, popErr)) ->
  UnmarshalRequest msg NoirRequest_zero = (request, parseErr) ->
  (popErr <> None \/ parseErr <> None) ->
  let format := match popErr with
                | Some _ => "queue error %s"
                | None => "message parse error: %s"
                end in
  env _ (Log Error format) w1 = (w2, tt) ->
  env _ (Log Error "worker handler error %s") w2 = (w3, tt) ->
  env _ (Sleep 1) w3 = (w4, tt) ->
  finishes env (HandleForever_body wk) w
    [mkCall (BlockUntilNext (queue wk) 0) (msg, popErr);
     mkCall (Log Error format) tt;
     mkCall (Log Error "worker handler error %s") tt;
     mkCall (Sleep 1) tt]
    w4 (inl tt).
Proof.
  intros H1 H2 He format H3 H4 H5.
  match goal with |- finishes _ ?t ?w ?tr ?w' ?r =>
    assert (G : wp env t w (fun tr0 w0 r0 => tr0 = tr /\ w0 = w' /\ r0 = r))
  end.
  { unfold HandleForever_body, HandleNext, NextCommand. subst format.
    destruct popErr as [e |]; [| destruct parseErr as [e |]];
      [| | destruct He; congruence]; wp_run; auto. }
  destruct G as (? & ? & ? & F & -> & -> & ->). exact F.
Qed.

(** [HandleForever] is the start-up log followed by the loop of those
    passes. *)
Lemma HandleForever_unfold wk :
  HandleForever wk
  = (_ <- call (Topic (queue wk)) ;;
     call (Log Debug "worker starting on topic %s") ;;
     ITree.iter (fun _ : unit => HandleForever_body wk) tt).
Proof. reflexivity. Qed.

End Dispatch.

(** ** More on the join procedure and its hooks *)

Section Join.

Context {lib : Library} {W : Type}.
Variable env : forall X : Type, NoirE X -> W -> W * X.

(** X9.  Every run of [HandleJoin] takes the worker's lock first and gives
    it back last, once each: also when [CreateClient] fails and when the
    body panics. *)
Theorem HandleJoin_holds_lock_throughout signal w tr w' r :
  finishes env (HandleJoin signal) w tr w' r ->
  starts_with is_MuLock tr = true /\
  ends_with is_MuUnlock tr = true /\
  length (filter is_MuLock tr) = 1 /\
  length (filter is_MuUnlock tr) = 1.
Proof.
  apply (wp_finishes env _ w
           (fun tr _ _ =>
              starts_with is_MuLock tr = true /\
              ends_with is_MuUnlock tr = true /\
              length (filter is_MuLock tr) = 1 /\
              length (filter is_MuUnlock tr) = 1)).
  unfold HandleJoin, HandleJoin_locked. wp_run; repeat split; reflexivity.
Qed.

(** X10.  A run of [HandleJoin] goes all the way or leaves nothing behind:
    either it returns nil, having set three hooks, negotiated once, enqueued
    one reply and started one Peer Channel; or it returns an error or
    panics, and then it has neither negotiated nor enqueued a reply nor
    started a Peer Channel. *)
Theorem HandleJoin_all_or_nothing signal w tr w' r :
  finishes env (HandleJoin signal) w tr w' r ->
  (r = Returned None /\
   length (hooks_registered tr) = 3 /\
   length (negotiations tr) = 1 /\
   length (enqueued tr) = 1 /\
   length (spawned tr) = 1) \/
  (r <> Returned None /\
   negotiations tr = [] /\
   enqueued tr = [] /\
   spawned tr = []).
Proof.
  apply (wp_finishes env _ w
           (fun tr _ r =>
              (r = Returned None /\
               length (hooks_registered tr) = 3 /\
               length (negotiations tr) = 1 /\
               length (enqueued tr) = 1 /\
               length (spawned tr) = 1) \/
              (r <> Returned None /\
               negotiations tr = [] /\
               enqueued tr = [] /\
               spawned tr = []))).
  unfold HandleJoin, HandleJoin_locked. wp_run;
    first [ left; repeat split; reflexivity
          | right; repeat split; try reflexivity; discriminate ].
Qed.

(** X11.  With a nil signal, which is what [HandleSignal] passes when the
    join request carries no signal command, and a [CreateClient] that does
    not object, [HandleJoin] panics on [signal.Id] right after the creation:
    no queue is resolved and no hook is set, and the lock is given back. *)
Theorem HandleJoin_nil_signal_panics w w1 w2 w3 peer :
  env _ MuLock w = (w1, tt) ->
  env _ (CreateClient None) w1 = (w2, (peer, None)) ->
  env _ MuUnlock w2 = (w3, tt) ->
  finishes env (HandleJoin None) w
    [mkCall MuLock tt; mkCall (CreateClient None) (peer, None);
     mkCall MuUnlock tt]
    w3 Panicked.
Proof.
  intros H1 H2 H3.
  match goal with |- finishes _ ?t ?w ?tr ?w' ?r =>
    assert (G : wp env t w (fun tr0 w0 r0 => tr0 = tr /\ w0 = w' /\ r0 = r))
  end.
  { unfold HandleJoin, HandleJoin_locked. wp_run. auto. }
  destruct G as (? & ? & ? & F & -> & -> & ->). exact F.
Qed.

(** X12.  When [CreateClient] returns neither an error nor a connection
    object, [HandleJoin] resolves the two queues and logs, and then panics on
    the first hook assignment: no hook is set, nothing is negotiated or
    enqueued, and the lock is given back. *)
Theorem HandleJoin_nil_peer_panics s w w1 w2 :
  env _ MuLock w = (w1, tt) ->
  env _ (CreateClient (Some s)) w1 = (w2, (None, None)) ->
  exists tr w',
    finishes env (HandleJoin (Some s)) w tr w' Panicked /\
    List.map fst (resolved tr)
      = [KeyTopicToPeer (Id s); KeyTopicFromPeer (Id s)] /\
    hooks_registered tr = [] /\
    engine_calls tr = [] /\
    enqueued tr = [] /\
    ends_with is_MuUnlock tr = true.
Proof.
  intros H1 H2.
  assert (G : wp env (HandleJoin (Some s)) w
                (fun tr _ r =>
                   r = Panicked /\
                   List.map fst (resolved tr)
                     = [KeyTopicToPeer (Id s); KeyTopicFromPeer (Id s)] /\
                   hooks_registered tr = [] /\
                   engine_calls tr = [] /\
                   enqueued tr = [] /\
                   ends_with is_MuUnlock tr = true)).
  { unfold HandleJoin, HandleJoin_locked. wp_run. repeat split; reflexivity. }
  destruct G as (tr & w' & ? & F & -> & G). eauto.
Qed.

(** X13.  A join request whose payload is not a Join passes [CreateClient]
    and the hook assignments and then panics on [join.Description]: by then
    the three hooks are set on the connection object, but nothing is
    negotiated, nothing is enqueued and no Peer Channel starts. *)
Theorem HandleJoin_other_payload_panics_after_hooks s w w1 w2 peer :
  GetJoin (Some s) = None ->
  env _ MuLock w = (w1, tt) ->
  env _ (CreateClient (Some s)) w1 = (w2, (Some peer, None)) ->
  exists tr w' recv send,
    finishes env (HandleJoin (Some s)) w tr w' Panicked /\
    hooks_registered tr
      = [mkCall (Set_OnIceCandidate peer send (Id s)) tt;
         mkCall (Set_OnICEConnectionStateChange peer) tt;
         mkCall (Set_OnOffer peer send (Id s)) tt] /\
    resolved tr = [(KeyTopicToPeer (Id s), recv);
                   (KeyTopicFromPeer (Id s), send)] /\
    engine_calls tr = [] /\ enqueued tr = [] /\ spawned tr = [].
Proof.
  intros Hj H1 H2.
  assert (G : wp env (HandleJoin (Some s)) w
                (fun tr _ r =>
                   r = Panicked /\
                   exists recv send,
                     hooks_registered tr
                       = [mkCall (Set_OnIceCandidate peer send (Id s)) tt;
                          mkCall (Set_OnICEConnectionStateChange peer) tt;
                          mkCall (Set_OnOffer peer send (Id s)) tt] /\
                     resolved tr = [(KeyTopicToPeer (Id s), recv);
                                    (KeyTopicFromPeer (Id s), send)] /\
                     engine_calls tr = [] /\ enqueued tr = [] /\
                     spawned tr = [])).
  { unfold HandleJoin, HandleJoin_locked. rewrite Hj.
    wp_run. split; [reflexivity |]. do 2 eexists.
    repeat split; reflexivity. }
  destruct G as (tr & w' & ? & F & -> & recv & send & G).
  exists tr, w', recv, send. split; [exact F | exact G].
Qed.

(** X14.  The ICE-candidate hook enqueues exactly one reply on the
    connection's outbound queue: a Trickle reply with the connection's id,
    an empty request id, what [json.Marshal] gave for the candidate pointer
    (nil or not), and the target narrowed to 32 bits: the target itself when
    it fits, its low 32 bits otherwise.  It does so also when marshalling
    fails, after logging. *)
Theorem OnIceCandidate_enqueues_one_trickle send pid candidate target w :
  exists tr w',
    finishes env (OnIceCandidate send pid candidate target) w tr w' tt /\
    enqueued tr
      = [(send,
          {| Reply_Command := Some (NoirReply_Signal
               {| Reply_Id := pid;
                  Reply_RequestId := "";
                  Reply_Payload := Some (SignalReply_Trickle
                    {| Init := fst (json_Marshal_ICECandidateInit candidate);
                       Target :=
                         ((target + 2147483648) mod 4294967296
                          - 2147483648)%Z |}) |}) |})] /\
    ((-2147483648 <= target < 2147483648)%Z ->
     List.map (fun qr =>
                 match Reply_Command (snd qr) with
                 | Some (NoirReply_Signal
                           {| Reply_Payload := Some (SignalReply_Trickle t) |})
                   => Some (Target t)
                 | _ => None
                 end) (enqueued tr) = [Some target]) /\
    length (logged tr)
      = (match snd (json_Marshal_ICECandidateInit candidate) with
         | Some _ => 1 | None => 0 end)
        + (match enqueue_results tr with
           | [Some _] => 1 | _ => 0 end).
Proof.
  assert (G : wp env (OnIceCandidate send pid candidate target) w
                (fun tr _ _ =>
                   enqueued tr
                     = [(send,
                         {| Reply_Command := Some (NoirReply_Signal
                              {| Reply_Id := pid;
                                 Reply_RequestId := "";
                                 Reply_Payload := Some (SignalReply_Trickle
                                   {| Init :=
                                        fst (json_Marshal_ICECandidateInit
                                               candidate);
                                      Target :=
                                        ((target + 2147483648)
                                           mod 4294967296
                                         - 2147483648)%Z |}) |}) |})] /\
                   length (logged tr)
                     = (match snd (json_Marshal_ICECandidateInit candidate)
                        with Some _ => 1 | None => 0 end)
                       + (match enqueue_results tr with
                          | [Some _] => 1 | _ => 0 end))).
  { unfold OnIceCandidate, Trickle_Target.
    destruct (json_Marshal_ICECandidateInit candidate) as [bytes [e |]];
      wp_run; split; reflexivity. }
  destruct G as (tr & w' & [] & F & He & Hl).
  exists tr, w'. split; [exact F |]. split; [exact He |].
  split; [| exact Hl].
  intros Hr. rewrite He. cbn.
  replace ((target + 2147483648) mod 4294967296 - 2147483648)%Z
    with target; [reflexivity |].
  rewrite Z.mod_small by lia. lia.
Qed.

(** A target that does not fit in 32 bits is stored as its low 32 bits. *)
Lemma Trickle_Target_wraps : Trickle_Target 4294967297 = 1%Z.
Proof. reflexivity. Qed.

(** X15.  The offer hook enqueues exactly one reply on the connection's
    outbound queue: a Description reply with the connection's id, the
    marshalled description and an empty request id, since it answers no
    request.  It does so also when marshalling fails, after logging. *)
Theorem OnOffer_enqueues_one_description send pid description w :
  exists tr w',
    finishes env (OnOffer send pid description) w tr w' tt /\
    enqueued tr
      = [(send,
          DescriptionReply pid ""
            (fst (json_Marshal_SessionDescription description)))] /\
    engine_calls tr = [].
Proof.
  assert (G : wp env (OnOffer send pid description) w
                (fun tr _ _ =>
                   enqueued tr
                     = [(send,
                         DescriptionReply pid ""
                           (fst (json_Marshal_SessionDescription
                                   description)))] /\
                   engine_calls tr = [])).
  { unfold OnOffer.
    destruct (json_Marshal_SessionDescription description) as [bytes [e |]];
      wp_run; split; reflexivity. }
  destruct G as (tr & w' & [] & F & G). eauto.
Qed.

End Join.

(** ** More on the Peer Channel *)

Lemma collect_app {A : Type} (f : Call -> option A) (tr1 tr2 : list Call) :
  collect f (tr1 ++ tr2) = collect f tr1 ++ collect f tr2.
Proof.
  induction tr1 as [| c tr1 IH]; cbn; [reflexivity |].
  destruct (f c); cbn; rewrite IH; reflexivity.
Qed.

Section Channel.

Context {lib : Library} {W : Type}.
Variable env : forall X : Type, NoirE X -> W -> W * X.

(** What holds of every pass, whatever the queue delivers and whatever the
    collaborators answer. *)
Lemma PeerChannel_pass_facts pid roomID peer recv send w :
  wp env (PeerChannel_body pid roomID peer recv send) w
    (fun tr _ r =>
       (starts_with (fun c => match pop_of c with
                              | Some _ => true | None => false end) tr
          = true /\
        pops tr = [(recv, 0%Z)]) /\
       ((enqueued tr = [] \/
         exists requestId bytes,
           enqueued tr = [(send, DescriptionReply pid requestId bytes)]) /\
        length (enqueued tr) = length (answers_computed tr)) /\
       (length (engine_calls tr) <= 1 /\
        Forall (fun c => engine_peer_of c = Some peer) (engine_calls tr)) /\
       (closed tr = match r with inr _ => [pid] | inl _ => [] end /\
        ends_with (fun c => match close_of c with
                            | Some _ => true | None => false end) tr
          = match r with inr _ => true | inl _ => false end /\
        (r = inr tt -> enqueued tr = [] /\ engine_calls tr = [])) /\
       worker_calls tr = []).
Proof.
  unfold PeerChannel_body, PeerChannel_dispatch.
  wp_run;
    (split; [split; reflexivity |]);
    (split; [split; [first [left; reflexivity
                           | right; do 2 eexists; reflexivity]
                    | reflexivity] |]);
    (split; [split; [cbn; lia | cbn; repeat constructor] |]);
    (split; [split; [reflexivity | split; [reflexivity |]] | reflexivity]);
    first [discriminate | intros _; split; reflexivity].
Qed.

(** X16.  A pass leaves the loop only through the Kill case: a pass that
    returns has called [CloseClient] with the connection's id once, as its
    last call, and has enqueued nothing and called no engine method; a pass
    that goes round has not called [CloseClient]. *)
Theorem PeerChannel_pass_returns_only_after_close
  pid roomID peer recv send w tr w' r :
  finishes env (PeerChannel_body pid roomID peer recv send) w tr w' r ->
  (r = inr tt /\ closed tr = [pid] /\
   ends_with (fun c => match close_of c with
                       | Some _ => true | None => false end) tr = true /\
   enqueued tr = [] /\ engine_calls tr = []) \/
  (r = inl tt /\ closed tr = []).
Proof.
  intros F.
  pose proof (wp_finishes env _ w _ tr w' r
                (PeerChannel_pass_facts pid roomID peer recv send w) F)
    as (_ & _ & _ & (Hc & He & Hr) & _).
  destruct r as [[] | []];
    [right; auto | left; destruct (Hr eq_refl); auto].
Qed.

(** X17.  A pass enqueues at most one reply, and if it enqueues one it is a
    Description reply with the connection's id on the outbound queue; it
    enqueues as many replies as it computed answers. *)
Theorem PeerChannel_pass_replies_at_most_once
  pid roomID peer recv send w tr w' r :
  finishes env (PeerChannel_body pid roomID peer recv send) w tr w' r ->
  (enqueued tr = [] \/
   exists requestId bytes,
     enqueued tr
       = [(send,
           {| Reply_Command := Some (NoirReply_Signal
                {| Reply_Id := pid;
                   Reply_RequestId := requestId;
                   Reply_Payload := Some (SignalReply_Description bytes)
                |}) |})]) /\
  length (enqueued tr) = length (answers_computed tr).
Proof.
  intros F.
  pose proof (wp_finishes env _ w _ tr w' r
                (PeerChannel_pass_facts pid roomID peer recv send w) F)
    as (_ & H & _).
  exact H.
Qed.

(** X18.  A pass pops once, first, from the inbound queue and with no
    timeout; it calls at most one engine method, on its own connection
    object; and it never takes the worker's lock, creates a connection
    object, resolves a queue, sets a hook, negotiates a join or starts a
    Peer Channel. *)
Theorem PeerChannel_pass_keeps_to_its_connection
  pid roomID peer recv send w tr w' r :
  finishes env (PeerChannel_body pid roomID peer recv send) w tr w' r ->
  starts_with (fun c => match pop_of c with
                        | Some _ => true | None => false end) tr = true /\
  pops tr = [(recv, 0%Z)] /\
  length (engine_calls tr) <= 1 /\
  Forall (fun c => engine_peer_of c = Some peer) (engine_calls tr) /\
  worker_calls tr = [].
Proof.
  intros F.
  pose proof (wp_finishes env _ w _ tr w' r
                (PeerChannel_pass_facts pid roomID peer recv send w) F)
    as ((H1 & H2) & _ & (H3 & H4) & _ & H5).
  auto.
Qed.

(** Passes that go round pop once each and do not call [CloseClient]. *)
Lemma PeerChannel_rounds_facts pid roomID peer recv send n w tr w' :
  rounds env (PeerChannel_body pid roomID peer recv send) n w tr w' ->
  length (pops tr) = n /\ closed tr = [].
Proof.
  induction 1 as [w | n w tr w1 tr' w2 F _ IH].
  - split; reflexivity.
  - pose proof (wp_finishes env _ w _ tr w1 (inl tt)
                  (PeerChannel_pass_facts pid roomID peer recv send w) F)
      as ((_ & Hp) & _ & _ & (Hc & _) & _).
    destruct IH as (I1 & I2).
    unfold pops, closed in *.
    rewrite !collect_app, length_app, Hp, Hc, I1, I2.
    split; reflexivity.
Qed.

(** X19.  However many passes the loop has made, it has popped once per
    pass and only from its inbound queue, has not called [CloseClient], has
    enqueued nothing but Description replies with its connection's id on its
    outbound queue, one per answer computed, has called engine methods on
    its own connection object only, and has made none of the worker's
    calls. *)
Theorem PeerChannel_rounds_invariant pid roomID peer recv send n w tr w' :
  rounds env (PeerChannel_body pid roomID peer recv send) n w tr w' ->
  length (pops tr) = n /\
  Forall (eq (recv, 0%Z)) (pops tr) /\
  closed tr = [] /\
  Forall (is_DescriptionReply_for send pid) (enqueued tr) /\
  length (enqueued tr) = length (answers_computed tr) /\
  Forall (fun c => engine_peer_of c = Some peer) (engine_calls tr) /\
  worker_calls tr = [].
Proof.
  induction 1 as [w | n w tr w1 tr' w2 F _ IH].
  - repeat split; constructor.
  - pose proof (wp_finishes env _ w _ tr w1 (inl tt)
                  (PeerChannel_pass_facts pid roomID peer recv send w) F)
      as ((_ & Hp) & (Hq & Hl) & (_ & He) & (Hc & _) & Hw).
    destruct IH as (I1 & I2 & I3 & I4 & I5 & I6 & I7).
    unfold pops, closed, enqueued, answers_computed, engine_calls,
      worker_calls in *.
    rewrite !collect_app, !filter_app, !length_app.
    rewrite Hp, Hc, Hw, I3, I7, Hl, I5, I1.
    repeat split; auto.
    + constructor; [reflexivity | exact I2].
    + apply Forall_app. split; [| exact I4].
      destruct Hq as [-> | (rid & b & ->)]; repeat constructor.
      exists rid, b. reflexivity.
    + apply Forall_app. auto.
Qed.

(** Passes that go round, then a loop that ends, make a loop that ends. *)
Lemma iter_rounds (body : itree NoirE (unit + unit)) n w tr w1 tr2 w2 :
  rounds env body n w tr w1 ->
  finishes env (ITree.iter (fun _ : unit => body) tt) w1 tr2 w2 tt ->
  finishes env (ITree.iter (fun _ : unit => body) tt) w (tr ++ tr2) w2 tt.
Proof.
  induction 1 as [w | n w tr w1 tr' w3 F _ IH]; intros L.
  - exact L.
  - rewrite <- app_assoc. eapply iter_goes_round; [exact F | auto].
Qed.

Lemma ends_with_app (p : Call -> bool) (tr1 tr2 : list Call) :
  ends_with p tr2 = true -> ends_with p (tr1 ++ tr2) = true.
Proof.
  unfold ends_with. rewrite rev_app_distr.
  destruct (rev tr2); [discriminate | auto].
Qed.

(** X20.  Passes compose: after any number of passes that go round, a pass
    that pops a Kill payload ends [PeerChannel]'s loop.  Over the whole run
    [CloseClient] is called exactly once, with the connection's id, and it is
    the last call the loop makes. *)
Theorem PeerChannel_closes_once_at_the_end
  pid roomID peer recv send n w tr w1 w2 message popErr request unmarshalErr
  signal b :
  rounds env (PeerChannel_body pid roomID peer recv send) n w tr w1 ->
  env _ (BlockUntilNext recv 0) w1 = (w2, (message, popErr)) ->
  UnmarshalRequest message NoirRequest_zero = (request, unmarshalErr) ->
  Command request = Some (NoirRequest_Signal signal) ->
  Payload signal = Some (SignalRequest_Kill b) ->
  exists last w',
    finishes env (PeerChannel_loop pid roomID peer recv send) w
      (tr ++ last) w' tt /\
    closed (tr ++ last) = [pid] /\
    ends_with (fun c => match close_of c with
                        | Some _ => true | None => false end) (tr ++ last)
      = true /\
    length (pops (tr ++ last)) = S n.
Proof.
  intros R H1 H2 H3 H4.
  assert (G : wp env (PeerChannel_body pid roomID peer recv send) w1
                (fun _ _ r => r = inr tt)).
  { unfold PeerChannel_body, PeerChannel_dispatch. wp_run; reflexivity. }
  destruct G as (last & w' & ? & F & ->).
  pose proof (wp_finishes env _ w1 _ last w' (inr tt)
                (PeerChannel_pass_facts pid roomID peer recv send w1) F)
    as ((_ & Hp) & _ & _ & (Hc & He & _) & _).
  destruct (PeerChannel_rounds_facts _ _ _ _ _ _ _ _ _ R) as (I1 & I3).
  exists last, w'. split; [| split; [| split]].
  - apply iter_rounds with (n := n) (w1 := w1); [exact R |].
    apply iter_returns, F.
  - unfold closed in *. rewrite collect_app, I3, Hc. reflexivity.
  - apply ends_with_app, He.
  - unfold pops in *. rewrite collect_app, length_app, I1, Hp. cbn. lia.
Qed.

(** The pass for a Trickle payload whose candidate decodes. *)
Lemma PeerChannel_trickle_pass
  pid roomID peer recv send w w1 message popErr request unmarshalErr signal
  trickle candidate :
  env _ (BlockUntilNext recv 0) w = (w1, (message, popErr)) ->
  UnmarshalRequest message NoirRequest_zero = (request, unmarshalErr) ->
  Command request = Some (NoirRequest_Signal signal) ->
  Payload signal = Some (SignalRequest_Trickle trickle) ->
  json_Unmarshal_ICECandidateInit (Init trickle) ICECandidateInit_zero
    = (candidate, None) ->
  wp env (PeerChannel_body pid roomID peer recv send) w
    (fun tr _ r =>
       r = inl tt /\
       trickles_forwarded tr = [(peer, candidate, Target trickle)] /\
       length (engine_calls tr) = 1 /\
       enqueued tr = []).
Proof.
  intros H1 H2 H3 H4 H5.
  unfold PeerChannel_body, PeerChannel_dispatch.
  wp_run; repeat split; reflexivity.
Qed.

(** X21.  A pass that finds a Trickle payload whose candidate decodes hands
    the candidate and the payload's target to the engine's [Trickle] once,
    enqueues nothing and goes round, whatever [Trickle] returns. *)
Theorem PeerChannel_trickle_forwarded
  pid roomID peer recv send w w1 message popErr request unmarshalErr signal
  trickle candidate :
  env _ (BlockUntilNext recv 0) w = (w1, (message, popErr)) ->
  UnmarshalRequest message NoirRequest_zero = (request, unmarshalErr) ->
  Command request = Some (NoirRequest_Signal signal) ->
  Payload signal = Some (SignalRequest_Trickle trickle) ->
  json_Unmarshal_ICECandidateInit (Init trickle) ICECandidateInit_zero
    = (candidate, None) ->
  exists tr w',
    finishes env (PeerChannel_body pid roomID peer recv send) w tr w'
      (inl tt) /\
    trickles_forwarded tr = [(peer, candidate, Target trickle)] /\
    length (engine_calls tr) = 1 /\
    enqueued tr = [].
Proof.
  intros H1 H2 H3 H4 H5.
  destruct (PeerChannel_trickle_pass pid roomID peer recv send
              _ _ _ _ _ _ _ _ _ H1 H2 H3 H4 H5)
    as (tr & w' & ? & F & -> & G).
  eauto.
Qed.

(** X22.  Trickle payloads are forwarded in the order the inbound queue
    delivers them: after passes that pop Trickle payloads with candidates
    and targets [cts], the candidates handed to the engine's [Trickle] are
    those of [cts] with their targets, in the same order, and nothing has
    been enqueued. *)
Theorem PeerChannel_trickles_forwarded_in_order
  pid roomID peer recv send w cts tr w' :
  trickle_rounds env pid roomID peer recv send w cts tr w' ->
  trickles_forwarded tr
    = List.map (fun ct => (peer, fst ct, snd ct)) cts /\
  enqueued tr = [] /\
  rounds env (PeerChannel_body pid roomID peer recv send) (length cts)
    w tr w'.
Proof.
  induction 1 as [w | w w0 message popErr request unmarshalErr signal
                      trickle candidate tr w1 cts tr' w2
                      H1 H2 H3 H4 H5 F _ IH].
  - repeat split. constructor.
  - pose proof (wp_finishes env _ w _ tr w1 (inl tt)
                  (PeerChannel_trickle_pass pid roomID peer recv send
                     _ _ _ _ _ _ _ _ _ H1 H2 H3 H4 H5) F)
      as (_ & Ht & _ & Hq).
    destruct IH as (I1 & I2 & I3).
    unfold trickles_forwarded, enqueued in *.
    rewrite !collect_app, Ht, Hq, I1, I2.
    repeat split. cbn. econstructor; eassumption.
Qed.

(** X23.  In the pass for an offer the data flows as the code reads: the
    room data is asked for the channel's room id; what the Manager validates
    is the offer, for this connection's id, against the room data it just
    returned; and the reply carries the marshalled value the engine's
    [Answer] returned, whatever error [Answer] returned with it.  The pass
    goes round also when [EnqueueReply] fails. *)
Theorem PeerChannel_offer_data_flow
  pid roomID peer recv send w w1 message popErr request unmarshalErr signal
  description desc :
  env _ (BlockUntilNext recv 0) w = (w1, (message, popErr)) ->
  UnmarshalRequest message NoirRequest_zero = (request, unmarshalErr) ->
  Command request = Some (NoirRequest_Signal signal) ->
  Payload signal = Some (SignalRequest_Description description) ->
  json_Unmarshal_Negotiation description Negotiation_zero = (desc, None) ->
  Type_ (Desc desc) = SDPTypeOffer ->
  exists tr w',
    finishes env (PeerChannel_body pid roomID peer recv send) w tr w'
      (inl tt) /\
    room_requests tr = [roomID] /\
    (forall roomData,
       room_data_answers tr = [(roomData, None)] ->
       validation_requests tr = [(roomData, pid, Desc desc)]) /\
    (forall answer answerErr,
       answer_results tr = [(answer, answerErr)] ->
       answers_computed tr = [(peer, Desc desc)] /\
       enqueued tr
         = [(send,
             {| Reply_Command := Some (NoirReply_Signal
                  {| Reply_Id := pid;
                     Reply_RequestId := RequestId signal;
                     Reply_Payload := Some (SignalReply_Description
                       (fst (json_Marshal_SessionDescription answer)))
                  |}) |})]).
Proof.
  intros H1 H2 H3 H4 H5 H6.
  assert (G : wp env (PeerChannel_body pid roomID peer recv send) w
                (fun tr _ r =>
                   r = inl tt /\
                   room_requests tr = [roomID] /\
                   (forall roomData,
                      room_data_answers tr = [(roomData, None)] ->
                      validation_requests tr = [(roomData, pid, Desc desc)])
                   /\
                   (forall answer answerErr,
                      answer_results tr = [(answer, answerErr)] ->
                      answers_computed tr = [(peer, Desc desc)] /\
                      enqueued tr
                        = [(send,
                            {| Reply_Command := Some (NoirReply_Signal
                                 {| Reply_Id := pid;
                                    Reply_RequestId := RequestId signal;
                                    Reply_Payload :=
                                      Some (SignalReply_Description
                                        (fst (json_Marshal_SessionDescription
                                                answer))) |}) |})]))).
  { unfold PeerChannel_body, PeerChannel_dispatch.
    wp_run;
      (split; [reflexivity |]); (split; [reflexivity |]);
      (split; [intros rd Hr; cbn in Hr; try discriminate;
               injection Hr as <-; reflexivity
              | intros a ae Ha; cbn in Ha; try discriminate]);
      injection Ha as <- <-;
      match goal with H : json_Marshal_SessionDescription _ = _ |- _ =>
        rewrite H end;
      split; reflexivity. }
  destruct G as (tr & w' & ? & F & -> & G). eauto.
Qed.

End Channel.

(** ** More runs against the example collaborators *)

Ltac example_run :=
  match goal with |- finishes ?env ?t ?w ?tr ?w' ?r =>
    let G := fresh "G" in
    assert (G : wp env t w (fun tr0 w0 r0 => tr0 = tr /\ w0 = w' /\ r0 = r));
    [ | destruct G as (? & ? & ? & G & -> & -> & ->); exact G ]
  end.

Lemma relay_pass_run m rest :
  finishes example_env
    (PeerChannel_body (lib := relay_library)
       "peerA" "room1" (PeerHandle 1) (QueueHandle 8) (QueueHandle 10))
    ((m, None) :: rest)
    [mkCall (BlockUntilNext (QueueHandle 8) 0) (m, None);
     mkCall (Peer_Trickle (PeerHandle 1) (relay_candidate m)
               (Z.of_nat (String.length m))) None]
    rest (inl tt).
Proof.
  example_run.
  unfold PeerChannel_body, PeerChannel_dispatch. wp_run.
  repeat split; reflexivity.
Qed.

Lemma example_trickle_pass_run rest :
  finishes example_env
    (PeerChannel_body (lib := example_library)
       "peerA" "room1" (PeerHandle 1) (QueueHandle 8) (QueueHandle 10))
    (("trickle", None) :: rest)
    [mkCall (BlockUntilNext (QueueHandle 8) 0) ("trickle", None);
     mkCall (Peer_Trickle (PeerHandle 1)
               {| Candidate := "candidate:1 1 udp 1 10.0.0.1 9 typ host";
                  SDPMid := None; SDPMLineIndex := None;
                  UsernameFragment := None |} 1) None]
    rest (inl tt).
Proof.
  example_run.
  unfold PeerChannel_body, PeerChannel_dispatch. wp_run.
  repeat split; reflexivity.
Qed.

Lemma example_kill_pass_run rest :
  finishes example_env
    (PeerChannel_body (lib := example_library)
       "peerA" "room1" (PeerHandle 1) (QueueHandle 8) (QueueHandle 10))
    (("kill", None) :: rest)
    [mkCall (BlockUntilNext (QueueHandle 8) 0) ("kill", None);
     mkCall (Log Debug "got KillRequest for peer %s") tt;
     mkCall (CloseClient "peerA") tt]
    rest (inr tt).
Proof.
  example_run.
  unfold PeerChannel_body, PeerChannel_dispatch. wp_run.
  repeat split; reflexivity.
Qed.

Lemma example_offer_pass_run rest :
  finishes example_env
    (PeerChannel_body (lib := example_library)
       "peerA" "room1" (PeerHandle 1) (QueueHandle 8) (QueueHandle 10))
    (("offer", None) :: rest)
    [mkCall (BlockUntilNext (QueueHandle 8) 0) ("offer", None);
     mkCall (GetRemoteRoomData "room1") (RoomDataHandle 1, None);
     mkCall (ValidateOffer (RoomDataHandle 1) "peerA"
               {| Type_ := SDPTypeOffer; SDP := "v=0 o" |}) (true, None);
     mkCall (Peer_Answer (PeerHandle 1)
               {| Type_ := SDPTypeOffer; SDP := "v=0 o" |})
       (Some {| Type_ := SDPTypeAnswer; SDP := "v=0 a" |}, None);
     mkCall (Log Debug "got offer, sending reply %s") tt;
     mkCall (EnqueueReply (QueueHandle 10)
               (DescriptionReply "peerA" "req-7" "{sdp:v=0 a}")) None]
    rest (inl tt).
Proof.
  example_run.
  unfold PeerChannel_body, PeerChannel_dispatch. wp_run.
  repeat split; reflexivity.
Qed.


Lemma example_handle_other_signal_run :
  finishes example_env
    (Handle (lib := example_library)
       (example_request
          (SignalRequest_Join {| Sid := "room1"; Description := "v=0" |})))
    [] [mkCall (Log Debug "handle %s") tt] [] (Returned None).
Proof.
  example_run. unfold Handle, HandleSignal. wp_run.
  repeat split; reflexivity.
Qed.

(** ** The further theorems at the example collaborators *)

Lemma Handle_ignores_other_actions_witness :
  String.prefix "request.signal."
    (Action {| Action := "ping"; Command := None |}) = false /\
  String.prefix "request.roomadmin."
    (Action {| Action := "ping"; Command := None |}) = false /\
  example_env _ (Log Debug "handle %s") [] = ([], tt) /\
  finishes example_env
    (Handle (lib := example_library) {| Action := "ping"; Command := None |})
    [] [mkCall (Log Debug "handle %s") tt] [] (Returned None).
Proof.
  split; [reflexivity |]. split; [reflexivity |]. split; [reflexivity |].
  exact (Handle_ignores_other_actions (lib := example_library) example_env
           {| Action := "ping"; Command := None |} [] []
           eq_refl eq_refl eq_refl).
Defined.

Lemma Handle_ignores_other_signal_actions_witness :
  String.prefix "request.signal."
    (Action (example_request (SignalRequest_Kill true))) = true /\
  Action (example_request (SignalRequest_Kill true))
    <> "request.signal.join" /\
  example_env _ (Log Debug "handle %s") [] = ([], tt) /\
  finishes example_env
    (Handle (lib := example_library)
       (example_request (SignalRequest_Kill true)))
    [] [mkCall (Log Debug "handle %s") tt] [] (Returned None).
Proof.
  split; [reflexivity |]. split; [discriminate |]. split; [reflexivity |].
  exact (Handle_ignores_other_signal_actions (lib := example_library)
           example_env (example_request (SignalRequest_Kill true)) [] []
           eq_refl ltac:(discriminate) eq_refl).
Defined.

Lemma Handle_roomadmin_opens_room_only_witness :
  String.prefix "request.signal." (Action example_openroom) = false /\
  String.prefix "request.roomadmin." (Action example_openroom) = true /\
  example_env _ (Log Debug "handle %s") [] = ([], tt) /\
  exists tr w',
    finishes example_env (Handle (lib := example_library) example_openroom)
      [] tr w' (Returned None) /\
    rooms_opened tr = [Some (mkRoomAdminRequest "room1")] /\
    length tr = 2.
Proof.
  split; [reflexivity |]. split; [reflexivity |]. split; [reflexivity |].
  exact (Handle_roomadmin_opens_room_only (lib := example_library)
           example_env example_openroom [] [] eq_refl eq_refl eq_refl).
Defined.

Lemma Handle_join_runs_HandleJoin_witness :
  Action example_join_request = "request.signal.join" /\
  example_env _ (Log Debug "handle %s") [] = ([], tt) /\
  finishes example_env
    (HandleJoin (lib := example_library) (GetSignal example_join_request))
    [] example_join_trace [] (Returned None) /\
  finishes example_env
    (Handle (lib := example_library) example_join_request) []
    (mkCall (Log Debug "handle %s") tt :: example_join_trace) []
    (Returned None).
Proof.
  split; [reflexivity |]. split; [reflexivity |].
  split; [exact example_join_run |].
  exact (Handle_join_runs_HandleJoin (lib := example_library) example_env
           example_join_request [] [] example_join_trace [] (Returned None)
           eq_refl eq_refl example_join_run).
Defined.

Lemma HandleNext_returns_pop_error_witness :
  example_env _ (BlockUntilNext (queue example_worker) 0) []
    = ([], ("", Some "queue closed")) /\
  example_env _ (Log Error "queue error %s") [] = ([], tt) /\
  finishes example_env
    (HandleNext (lib := example_library) example_worker 0) []
    [mkCall (BlockUntilNext (queue example_worker) 0)
       ("", Some "queue closed");
     mkCall (Log Error "queue error %s") tt]
    [] (Returned (Some "queue closed")).
Proof.
  split; [reflexivity |]. split; [reflexivity |].
  exact (HandleNext_returns_pop_error (lib := example_library) example_env
           example_worker 0%Z [] [] [] "" "queue closed" eq_refl eq_refl).
Defined.

Lemma HandleNext_returns_parse_error_witness :
  example_env _ (BlockUntilNext (queue example_worker) 0)
    [("garbage", None)] = ([], ("garbage", None)) /\
  UnmarshalRequest (Library := example_library) "garbage" NoirRequest_zero
    = (NoirRequest_zero, Some "cannot parse invalid wire-format data") /\
  example_env _ (Log Error "message parse error: %s") [] = ([], tt) /\
  finishes example_env
    (HandleNext (lib := example_library) example_worker 0)
    [("garbage", None)]
    [mkCall (BlockUntilNext (queue example_worker) 0) ("garbage", None);
     mkCall (Log Error "message parse error: %s") tt]
    [] (Returned (Some "cannot parse invalid wire-format data")).
Proof.
  split; [reflexivity |]. split; [reflexivity |]. split; [reflexivity |].
  exact (HandleNext_returns_parse_error (lib := example_library) example_env
           example_worker 0%Z [("garbage", None)] [] [] "garbage"
           NoirRequest_zero "cannot parse invalid wire-format data"
           eq_refl eq_refl eq_refl).
Defined.

Lemma HandleNext_dispatches_decoded_request_witness :
  example_env _ (BlockUntilNext (queue example_worker) 0) [("join", None)]
    = ([], ("join", None)) /\
  UnmarshalRequest (Library := example_library) "join" NoirRequest_zero
    = (example_request
         (SignalRequest_Join {| Sid := "room1"; Description := "v=0" |}),
       None) /\
  finishes example_env
    (HandleNext (lib := example_library) example_worker 0) [("join", None)]
    [mkCall (BlockUntilNext (queue example_worker) 0) ("join", None);
     mkCall (Log Debug "handle %s") tt]
    [] (Returned None).
Proof.
  split; [reflexivity |]. split; [reflexivity |].
  exact (HandleNext_dispatches_decoded_request (lib := example_library)
           example_env example_worker 0%Z [("join", None)] [] "join"
           _ _ _ _ eq_refl eq_refl example_handle_other_signal_run).
Defined.

Lemma HandleForever_backs_off_after_error_witness :
  example_env _ (BlockUntilNext (queue example_worker) 0) []
    = ([], ("", Some "queue closed")) /\
  UnmarshalRequest (Library := example_library) "" NoirRequest_zero
    = (NoirRequest_zero, None) /\
  Some "queue closed" <> @None error /\
  finishes example_env
    (HandleForever_body (lib := example_library) example_worker) []
    [mkCall (BlockUntilNext (queue example_worker) 0)
       ("", Some "queue closed");
     mkCall (Log Error "queue error %s") tt;
     mkCall (Log Error "worker handler error %s") tt;
     mkCall (Sleep 1) tt]
    [] (inl tt).
Proof.
  split; [reflexivity |]. split; [reflexivity |]. split; [discriminate |].
  assert (He : Some "queue closed" <> @None error \/ @None error <> None)
    by (left; discriminate).
  pose proof (HandleForever_backs_off_after_error (lib := example_library)
                example_env example_worker [] [] [] [] [] ""
                (Some "queue closed") NoirRequest_zero None
                eq_refl eq_refl He) as H.
  cbv zeta in H. exact (H eq_refl eq_refl eq_refl).
Defined.

Lemma HandleJoin_holds_lock_throughout_witness :
  finishes example_env
    (HandleJoin (lib := example_library) (Some example_join))
    [] example_join_trace [] (Returned None) /\
  starts_with is_MuLock example_join_trace = true /\
  ends_with is_MuUnlock example_join_trace = true /\
  length (filter is_MuLock example_join_trace) = 1 /\
  length (filter is_MuUnlock example_join_trace) = 1.
Proof.
  split; [exact example_join_run |].
  exact (HandleJoin_holds_lock_throughout (lib := example_library)
           example_env (Some example_join) [] example_join_trace []
           (Returned None) example_join_run).
Defined.

Lemma HandleJoin_all_or_nothing_witness :
  finishes example_env
    (HandleJoin (lib := example_library) (Some example_bad_join))
    [] example_bad_join_trace [] (Returned None) /\
  ((@Returned (option error) None = Returned None /\
    length (hooks_registered example_bad_join_trace) = 3 /\
    length (negotiations example_bad_join_trace) = 1 /\
    length (enqueued example_bad_join_trace) = 1 /\
    length (spawned example_bad_join_trace) = 1) \/
   (@Returned (option error) None <> Returned None /\
    negotiations example_bad_join_trace = [] /\
    enqueued example_bad_join_trace = [] /\
    spawned example_bad_join_trace = [])).
Proof.
  split; [exact example_bad_join_run |].
  exact (HandleJoin_all_or_nothing (lib := example_library)
           example_env (Some example_bad_join) [] example_bad_join_trace []
           (Returned None) example_bad_join_run).
Defined.

Lemma HandleJoin_nil_signal_panics_witness :
  careless_env _ MuLock [] = ([], tt) /\
  careless_env _ (CreateClient None) [] = ([], (None, None)) /\
  careless_env _ MuUnlock [] = ([], tt) /\
  finishes careless_env (HandleJoin (lib := example_library) None) []
    [mkCall MuLock tt; mkCall (CreateClient None) (None, None);
     mkCall MuUnlock tt]
    [] Panicked.
Proof.
  split; [reflexivity |]. split; [reflexivity |]. split; [reflexivity |].
  exact (HandleJoin_nil_signal_panics (lib := example_library) careless_env
           [] [] [] [] None eq_refl eq_refl eq_refl).
Defined.

Lemma HandleJoin_nil_peer_panics_witness :
  careless_env _ MuLock [] = ([], tt) /\
  careless_env _ (CreateClient (Some example_join)) []
    = ([], (None, None)) /\
  exists tr w',
    finishes careless_env
      (HandleJoin (lib := example_library) (Some example_join))
      [] tr w' Panicked /\
    List.map fst (resolved tr) = ["to/peerA"; "from/peerA"] /\
    hooks_registered tr = [] /\
    engine_calls tr = [] /\
    enqueued tr = [] /\
    ends_with is_MuUnlock tr = true.
Proof.
  split; [reflexivity |]. split; [reflexivity |].
  exact (HandleJoin_nil_peer_panics (lib := example_library) careless_env
           example_join [] [] [] eq_refl eq_refl).
Defined.

Lemma HandleJoin_other_payload_panics_after_hooks_witness :
  GetJoin (Some (example_signal (SignalRequest_Kill true))) = None /\
  example_env _ MuLock [] = ([], tt) /\
  example_env _
    (CreateClient (Some (example_signal (SignalRequest_Kill true)))) []
    = ([], (Some (PeerHandle 1), None)) /\
  exists tr w' recv send,
    finishes example_env
      (HandleJoin (lib := example_library)
         (Some (example_signal (SignalRequest_Kill true))))
      [] tr w' Panicked /\
    hooks_registered tr
      = [mkCall (Set_OnIceCandidate (PeerHandle 1) send "peerA") tt;
         mkCall (Set_OnICEConnectionStateChange (PeerHandle 1)) tt;
         mkCall (Set_OnOffer (PeerHandle 1) send "peerA") tt] /\
    resolved tr = [("to/peerA", recv); ("from/peerA", send)] /\
    engine_calls tr = [] /\ enqueued tr = [] /\ spawned tr = [].
Proof.
  split; [reflexivity |]. split; [reflexivity |]. split; [reflexivity |].
  exact (HandleJoin_other_payload_panics_after_hooks
           (lib := example_library) example_env
           (example_signal (SignalRequest_Kill true)) [] [] []
           (PeerHandle 1) eq_refl eq_refl eq_refl).
Defined.

Lemma PeerChannel_pass_returns_only_after_close_witness :
  finishes example_env
    (PeerChannel_body (lib := example_library)
       "peerA" "room1" (PeerHandle 1) (QueueHandle 8) (QueueHandle 10))
    [("kill", None)]
    [mkCall (BlockUntilNext (QueueHandle 8) 0) ("kill", None);
     mkCall (Log Debug "got KillRequest for peer %s") tt;
     mkCall (CloseClient "peerA") tt]
    [] (inr tt) /\
  closed
    [mkCall (BlockUntilNext (QueueHandle 8) 0) ("kill", None);
     mkCall (Log Debug "got KillRequest for peer %s") tt;
     mkCall (CloseClient "peerA") tt] = ["peerA"].
Proof.
  split; [exact (example_kill_pass_run []) |].
  destruct (PeerChannel_pass_returns_only_after_close
              (lib := example_library) example_env
              "peerA" "room1" (PeerHandle 1) (QueueHandle 8) (QueueHandle 10)
              _ _ _ _ (example_kill_pass_run []))
    as [(_ & H & _) | (H & _)]; [exact H | discriminate H].
Defined.

Lemma PeerChannel_pass_replies_at_most_once_witness :
  exists tr,
    finishes example_env
      (PeerChannel_body (lib := example_library)
         "peerA" "room1" (PeerHandle 1) (QueueHandle 8) (QueueHandle 10))
      [("offer", None)] tr [] (inl tt) /\
    enqueued tr
      = [(QueueHandle 10,
          {| Reply_Command := Some (NoirReply_Signal
               {| Reply_Id := "peerA";
                  Reply_RequestId := "req-7";
                  Reply_Payload :=
                    Some (SignalReply_Description "{sdp:v=0 a}") |}) |})] /\
    ((enqueued tr = [] \/
      exists requestId bytes,
        enqueued tr
          = [(QueueHandle 10,
              {| Reply_Command := Some (NoirReply_Signal
                   {| Reply_Id := "peerA";
                      Reply_RequestId := requestId;
                      Reply_Payload := Some (SignalReply_Description bytes)
                   |}) |})]) /\
     length (enqueued tr) = length (answers_computed tr)).
Proof.
  eexists. split; [exact (example_offer_pass_run []) |].
  split; [reflexivity |].
  exact (PeerChannel_pass_replies_at_most_once (lib := example_library)
           example_env
           "peerA" "room1" (PeerHandle 1) (QueueHandle 8) (QueueHandle 10)
           _ _ _ _ (example_offer_pass_run [])).
Defined.

Lemma PeerChannel_pass_keeps_to_its_connection_witness :
  exists tr,
    finishes example_env
      (PeerChannel_body (lib := example_library)
         "peerA" "room1" (PeerHandle 1) (QueueHandle 8) (QueueHandle 10))
      [("trickle", None)] tr [] (inl tt) /\
    length (engine_calls tr) = 1 /\
    pops tr = [(QueueHandle 8, 0%Z)] /\
    Forall (fun c => engine_peer_of c = Some (PeerHandle 1))
      (engine_calls tr) /\
    worker_calls tr = [].
Proof.
  eexists. split; [exact (example_trickle_pass_run []) |].
  split; [reflexivity |].
  destruct (PeerChannel_pass_keeps_to_its_connection
              (lib := example_library) example_env
              "peerA" "room1" (PeerHandle 1) (QueueHandle 8) (QueueHandle 10)
              _ _ _ _ (example_trickle_pass_run []))
    as (_ & H2 & _ & H4 & H5).
  auto.
Defined.

Lemma example_offer_trickle_rounds_run :
  exists tr,
    rounds example_env
      (PeerChannel_body (lib := example_library)
         "peerA" "room1" (PeerHandle 1) (QueueHandle 8) (QueueHandle 10))
      2 [("offer", None); ("trickle", None)] tr [] /\
    enqueued tr
      = [(QueueHandle 10,
          {| Reply_Command := Some (NoirReply_Signal
               {| Reply_Id := "peerA";
                  Reply_RequestId := "req-7";
                  Reply_Payload :=
                    Some (SignalReply_Description "{sdp:v=0 a}") |}) |})].
Proof.
  eexists. split.
  - eapply rounds_more;
      [exact (example_offer_pass_run [("trickle", None)]) |].
    eapply rounds_more; [exact (example_trickle_pass_run []) |].
    apply rounds_none.
  - reflexivity.
Qed.

Lemma PeerChannel_rounds_invariant_witness :
  exists tr,
    rounds example_env
      (PeerChannel_body (lib := example_library)
         "peerA" "room1" (PeerHandle 1) (QueueHandle 8) (QueueHandle 10))
      2 [("offer", None); ("trickle", None)] tr [] /\
    enqueued tr
      = [(QueueHandle 10,
          {| Reply_Command := Some (NoirReply_Signal
               {| Reply_Id := "peerA";
                  Reply_RequestId := "req-7";
                  Reply_Payload :=
                    Some (SignalReply_Description "{sdp:v=0 a}") |}) |})] /\
    length (pops tr) = 2 /\
    Forall (eq (QueueHandle 8, 0%Z)) (pops tr) /\
    closed tr = [] /\
    Forall (is_DescriptionReply_for (QueueHandle 10) "peerA")
      (enqueued tr) /\
    length (enqueued tr) = length (answers_computed tr) /\
    Forall (fun c => engine_peer_of c = Some (PeerHandle 1))
      (engine_calls tr) /\
    worker_calls tr = [].
Proof.
  destruct example_offer_trickle_rounds_run as (tr & R & He).
  exists tr. split; [exact R |]. split; [exact He |].
  exact (PeerChannel_rounds_invariant (lib := example_library) example_env
           "peerA" "room1" (PeerHandle 1) (QueueHandle 8) (QueueHandle 10)
           _ _ _ _ R).
Defined.

Lemma PeerChannel_closes_once_at_the_end_witness :
  exists tr,
    rounds example_env
      (PeerChannel_body (lib := example_library)
         "peerA" "room1" (PeerHandle 1) (QueueHandle 8) (QueueHandle 10))
      1 [("trickle", None); ("kill", None)] tr [("kill", None)] /\
    example_env _ (BlockUntilNext (QueueHandle 8) 0) [("kill", None)]
      = ([], ("kill", None)) /\
    UnmarshalRequest (Library := example_library) "kill" NoirRequest_zero
      = (example_request (SignalRequest_Kill true), None) /\
    exists last w',
      finishes example_env
        (PeerChannel_loop (lib := example_library)
           "peerA" "room1" (PeerHandle 1) (QueueHandle 8) (QueueHandle 10))
        [("trickle", None); ("kill", None)] (tr ++ last) w' tt /\
      closed (tr ++ last) = ["peerA"] /\
      ends_with (fun c => match close_of c with
                          | Some _ => true | None => false end)
        (tr ++ last) = true /\
      length (pops (tr ++ last)) = 2.
Proof.
  pose proof (rounds_more example_env _ 0 _ _ _ [] _
                (example_trickle_pass_run [("kill", None)])
                (rounds_none example_env _ [("kill", None)])) as R.
  eexists. split; [exact R |]. split; [reflexivity |].
  split; [reflexivity |].
  exact (PeerChannel_closes_once_at_the_end (lib := example_library)
           example_env
           "peerA" "room1" (PeerHandle 1) (QueueHandle 8) (QueueHandle 10)
           1 _ _ _ [] "kill" None
           (example_request (SignalRequest_Kill true)) None
           (example_signal (SignalRequest_Kill true)) true
           R eq_refl eq_refl eq_refl eq_refl).
Defined.

Lemma PeerChannel_trickle_forwarded_witness :
  example_env _ (BlockUntilNext (QueueHandle 8) 0) [("trickle", None)]
    = ([], ("trickle", None)) /\
  UnmarshalRequest (Library := example_library) "trickle" NoirRequest_zero
    = (example_request
         (SignalRequest_Trickle {| Init := "{candidate}"; Target := 1 |}),
       None) /\
  json_Unmarshal_ICECandidateInit (Library := example_library)
    "{candidate}" ICECandidateInit_zero
    = ({| Candidate := "candidate:1 1 udp 1 10.0.0.1 9 typ host";
          SDPMid := None; SDPMLineIndex := None;
          UsernameFragment := None |}, None) /\
  exists tr w',
    finishes example_env
      (PeerChannel_body (lib := example_library)
         "peerA" "room1" (PeerHandle 1) (QueueHandle 8) (QueueHandle 10))
      [("trickle", None)] tr w' (inl tt) /\
    trickles_forwarded tr
      = [(PeerHandle 1,
          {| Candidate := "candidate:1 1 udp 1 10.0.0.1 9 typ host";
             SDPMid := None; SDPMLineIndex := None;
             UsernameFragment := None |}, 1%Z)] /\
    length (engine_calls tr) = 1 /\
    enqueued tr = [].
Proof.
  split; [reflexivity |]. split; [reflexivity |]. split; [reflexivity |].
  exact (PeerChannel_trickle_forwarded (lib := example_library) example_env
           "peerA" "room1" (PeerHandle 1) (QueueHandle 8) (QueueHandle 10)
           [("trickle", None)] [] "trickle" None
           (example_request
              (SignalRequest_Trickle
                 {| Init := "{candidate}"; Target := 1 |})) None
           (example_signal
              (SignalRequest_Trickle
                 {| Init := "{candidate}"; Target := 1 |}))
           {| Init := "{candidate}"; Target := 1 |}
           _ eq_refl eq_refl eq_refl eq_refl eq_refl).
Defined.

Lemma PeerChannel_trickles_forwarded_in_order_witness :
  exists tr,
    trickle_rounds (lib := relay_library) example_env
      "peerA" "room1" (PeerHandle 1) (QueueHandle 8) (QueueHandle 10)
      [("a", None); ("bb", None)]
      [(relay_candidate "a", 1%Z); (relay_candidate "bb", 2%Z)] tr [] /\
    trickles_forwarded tr
      = [(PeerHandle 1, relay_candidate "a", 1%Z);
         (PeerHandle 1, relay_candidate "bb", 2%Z)] /\
    enqueued tr = [].
Proof.
  pose proof (trickle_rounds_more (lib := relay_library) example_env
                "peerA" "room1" (PeerHandle 1) (QueueHandle 8)
                (QueueHandle 10)
                [("a", None); ("bb", None)] [("bb", None)]
                "a" None _ None _ {| Init := "a"; Target := 1 |}
                _ _ _ _ _ _
                eq_refl eq_refl eq_refl eq_refl eq_refl
                (relay_pass_run "a" [("bb", None)])
                (trickle_rounds_more (lib := relay_library) example_env
                   "peerA" "room1" (PeerHandle 1) (QueueHandle 8)
                   (QueueHandle 10)
                   [("bb", None)] []
                   "bb" None _ None _ {| Init := "bb"; Target := 2 |}
                   _ _ _ _ _ _
                   eq_refl eq_refl eq_refl eq_refl eq_refl
                   (relay_pass_run "bb" [])
                   (trickle_rounds_none (lib := relay_library) example_env
                      "peerA" "room1" (PeerHandle 1) (QueueHandle 8)
                      (QueueHandle 10) []))) as T.
  eexists. split; [exact T |].
  destruct (PeerChannel_trickles_forwarded_in_order (lib := relay_library)
              example_env
              "peerA" "room1" (PeerHandle 1) (QueueHandle 8) (QueueHandle 10)
              _ _ _ _ T) as (H1 & H2 & _).
  split; [exact H1 | exact H2].
Defined.

Lemma PeerChannel_offer_data_flow_witness :
  example_env _ (BlockUntilNext (QueueHandle 8) 0) [("offer", None)]
    = ([], ("offer", None)) /\
  UnmarshalRequest (Library := example_library) "offer" NoirRequest_zero
    = (example_request (SignalRequest_Description "{offer}"), None) /\
  json_Unmarshal_Negotiation (Library := example_library)
    "{offer}" Negotiation_zero
    = ({| Desc := {| Type_ := SDPTypeOffer; SDP := "v=0 o" |} |}, None) /\
  exists tr w',
    finishes example_env
      (PeerChannel_body (lib := example_library)
         "peerA" "room1" (PeerHandle 1) (QueueHandle 8) (QueueHandle 10))
      [("offer", None)] tr w' (inl tt) /\
    room_requests tr = ["room1"] /\
    (forall roomData,
       room_data_answers tr = [(roomData, None)] ->
       validation_requests tr
         = [(roomData, "peerA",
             {| Type_ := SDPTypeOffer; SDP := "v=0 o" |})]) /\
    (forall answer answerErr,
       answer_results tr = [(answer, answerErr)] ->
       answers_computed tr
         = [(PeerHandle 1, {| Type_ := SDPTypeOffer; SDP := "v=0 o" |})] /\
       enqueued tr
         = [(QueueHandle 10,
             {| Reply_Command := Some (NoirReply_Signal
                  {| Reply_Id := "peerA";
                     Reply_RequestId := "req-7";
                     Reply_Payload := Some (SignalReply_Description
                       (fst (example_Marshal_SessionDescription answer)))
                  |}) |})]).
Proof.
  split; [reflexivity |]. split; [reflexivity |]. split; [reflexivity |].
  exact (PeerChannel_offer_data_flow (lib := example_library) example_env
           "peerA" "room1" (PeerHandle 1) (QueueHandle 8) (QueueHandle 10)
           [("offer", None)] [] "offer" None
           (example_request (SignalRequest_Description "{offer}")) None
           (example_signal (SignalRequest_Description "{offer}")) "{offer}"
           {| Desc := {| Type_ := SDPTypeOffer; SDP := "v=0 o" |} |}
           eq_refl eq_refl eq_refl eq_refl eq_refl eq_refl).
Defined.

Lemma PeerChannel_bad_description_dropped_witness :
  example_env _ (BlockUntilNext (QueueHandle 8) 0) [("description?", None)]
    = ([], ("description?", None)) /\
  UnmarshalRequest (Library := example_library)
    "description?" NoirRequest_zero
    = (example_request (SignalRequest_Description "{"), None) /\
  json_Unmarshal_Negotiation (Library := example_library)
    "{" Negotiation_zero
    = (Negotiation_zero, Some "unexpected end of JSON input") /\
  exists w',
    finishes example_env
      (PeerChannel_body (lib := example_library)
         "peerA" "room1" (PeerHandle 1) (QueueHandle 8) (QueueHandle 10))
      [("description?", None)]
      [mkCall (BlockUntilNext (QueueHandle 8) 0) ("description?", None);
       mkCall (Log Error "unmarshal err: %s") tt]
      w' (inl tt).
Proof.
  split; [reflexivity |]. split; [reflexivity |]. split; [reflexivity |].
  destruct (PeerChannel_bad_description_dropped (lib := example_library)
              example_env
              "peerA" "room1" (PeerHandle 1) (QueueHandle 8) (QueueHandle 10)
              [("description?", None)] [] "description?" None
              (example_request (SignalRequest_Description "{")) None
              (example_signal (SignalRequest_Description "{")) "{"
              Negotiation_zero "unexpected end of JSON input"
              eq_refl eq_refl eq_refl eq_refl eq_refl) as (w' & F & _).
  exists w'. exact F.
Defined.

Lemma PeerChannel_bad_candidate_dropped_witness :
  example_env _ (BlockUntilNext (QueueHandle 8) 0) [("trickle?", None)]
    = ([], ("trickle?", None)) /\
  UnmarshalRequest (Library := example_library) "trickle?" NoirRequest_zero
    = (example_request
         (SignalRequest_Trickle {| Init := "{"; Target := 1 |}), None) /\
  json_Unmarshal_ICECandidateInit (Library := example_library)
    "{" ICECandidateInit_zero
    = (ICECandidateInit_zero, Some "unexpected end of JSON input") /\
  exists w',
    finishes example_env
      (PeerChannel_body (lib := example_library)
         "peerA" "room1" (PeerHandle 1) (QueueHandle 8) (QueueHandle 10))
      [("trickle?", None)]
      [mkCall (BlockUntilNext (QueueHandle 8) 0) ("trickle?", None);
       mkCall (Log Error "unmarshal err: %s %s") tt]
      w' (inl tt).
Proof.
  split; [reflexivity |]. split; [reflexivity |]. split; [reflexivity |].
  destruct (PeerChannel_bad_candidate_dropped (lib := example_library)
              example_env
              "peerA" "room1" (PeerHandle 1) (QueueHandle 8) (QueueHandle 10)
              [("trickle?", None)] [] "trickle?" None
              (example_request
                 (SignalRequest_Trickle {| Init := "{"; Target := 1 |})) None
              (example_signal
                 (SignalRequest_Trickle {| Init := "{"; Target := 1 |}))
              {| Init := "{"; Target := 1 |}
              ICECandidateInit_zero "unexpected end of JSON input"
              eq_refl eq_refl eq_refl eq_refl eq_refl) as (w' & F & _).
  exists w'. exact F.
Defined.

Lemma PeerChannel_unknown_payload_dropped_witness :
  example_env _ (BlockUntilNext (QueueHandle 8) 0) [("join", None)]
    = ([], ("join", None)) /\
  UnmarshalRequest (Library := example_library) "join" NoirRequest_zero
    = (example_request
         (SignalRequest_Join {| Sid := "room1"; Description := "v=0" |}),
       None) /\
  exists w',
    finishes example_env
      (PeerChannel_body (lib := example_library)
         "peerA" "room1" (PeerHandle 1) (QueueHandle 8) (QueueHandle 10))
      [("join", None)]
      [mkCall (BlockUntilNext (QueueHandle 8) 0) ("join", None);
       mkCall (Log Error "unknown signal for peer %s") tt]
      w' (inl tt).
Proof.
  split; [reflexivity |]. split; [reflexivity |].
  destruct (PeerChannel_unknown_payload_dropped (lib := example_library)
              example_env
              "peerA" "room1" (PeerHandle 1) (QueueHandle 8) (QueueHandle 10)
              [("join", None)] [] "join" None
              (example_request
                 (SignalRequest_Join
                    {| Sid := "room1"; Description := "v=0" |})) None
              (example_signal
                 (SignalRequest_Join
                    {| Sid := "room1"; Description := "v=0" |}))
              eq_refl eq_refl eq_refl
              (or_intror
                 (ex_intro _ {| Sid := "room1"; Description := "v=0" |}
                    eq_refl))) as (w' & F & _).
  exists w'. exact F.
Defined.
